(** * Routing graph, prompt assembly and upload handler of the voice-assistant server

    A shallow embedding of
    - [app/agent/nodes.py]  (the routing and generation nodes),
    - [app/api/v1/endpoints/chat.py] (the chat request boundary),
    - [app/api/v1/endpoints/upload.py] (the upload handler),
    - [app/tools/web_search.py] (the web-search tool factory),
    together with the few functions of Python's standard library they call
    ([str.lower], [in] on strings, [str.join], [posixpath.splitext],
    [posixpath.join], [str(uuid.uuid4())], the [.1f] format of a size).

    Python strings are modelled as byte strings ([string]); the keyword
    tests and the path functions only ever compare against ASCII characters.
    [print] calls write to the server's console only and are left out. *)

From Stdlib Require Import ZArith NArith String Ascii List Lia QArith_base DecimalString.
From Stdlib.Strings Require Import Byte.
From stdpp Require Import base gmap strings list.
Import ListNotations.
Open Scope Z_scope.

(* ===================================================================== *)
(** ** Python's string primitives *)
(* ===================================================================== *)

Module Py.

(** A one-character string. *)
Definition chr (a : ascii) : string := String a EmptyString.

(** The characters a Rocq string literal cannot hold directly. *)
Definition nl : string := chr "010"%char.
Definition dquote : string := chr "034"%char.

(** The em dash of an error message, in UTF-8. *)
Definition em_dash : string :=
  String "226"%char (String "128"%char (String "148"%char EmptyString)).

(** [str.lower] on one ASCII character: A..Z go to a..z. *)
Definition lower_ascii (a : ascii) : ascii :=
  let n := N_of_ascii a in
  if ((65 <=? n) && (n <=? 90))%N then ascii_of_N (n + 32) else a.

(** [s.lower()]. *)
Fixpoint lower (s : string) : string :=
  match s with
  | EmptyString => EmptyString
  | String a s' => String (lower_ascii a) (lower s')
  end.

(** [needle in hay] on strings: [needle] occurs as a contiguous substring. *)
Fixpoint contains (needle hay : string) : bool :=
  String.prefix needle hay ||
  match hay with
  | EmptyString => false
  | String _ hay' => contains needle hay'
  end.

(** [sep.join(parts)]. *)
Definition join (sep : string) (parts : list string) : string :=
  String.concat sep parts.

(** [not s] for a string: the empty string is falsy. *)
Definition falsy (s : string) : bool :=
  match s with EmptyString => true | _ => false end.

(** [not x] for [x] that is [None] or a string. *)
Definition falsy_opt (o : option string) : bool :=
  match o with None => true | Some s => falsy s end.

(** [str(n)] for a non-negative integer. *)
Definition str_N (n : N) : string := NilZero.string_of_uint (N.to_uint n).

(** [s.rfind(c)] for a one-character [c]: the highest index at which [c]
    stands, or -1.  [rfind_from] carries the index of the head of [s]. *)
Fixpoint rfind_from (c : ascii) (s : string) (i : Z) : Z :=
  match s with
  | EmptyString => -1
  | String a s' =>
      let r := rfind_from c s' (i + 1) in
      if 0 <=? r then r else if Ascii.eqb a c then i else -1
  end.

Definition rfind (c : ascii) (s : string) : Z := rfind_from c s 0.

(** [s[i:]] and [s[:i]] for [0 <= i]. *)
Fixpoint drop_str (i : nat) (s : string) : string :=
  match i, s with
  | O, _ => s
  | S i', EmptyString => EmptyString
  | S i', String _ s' => drop_str i' s'
  end.

Fixpoint take_str (i : nat) (s : string) : string :=
  match i, s with
  | O, _ => EmptyString
  | S i', EmptyString => EmptyString
  | S i', String a s' => String a (take_str i' s')
  end.

(** [s.startswith(c)] and [s.endswith(c)] for a one-character [c]. *)
Definition startswith (c : ascii) (s : string) : bool :=
  match s with String a _ => Ascii.eqb a c | EmptyString => false end.

Fixpoint endswith (c : ascii) (s : string) : bool :=
  match s with
  | EmptyString => false
  | String a EmptyString => Ascii.eqb a c
  | String _ s' => endswith c s'
  end.

(** The loop of [genericpath._splitext] that skips leading dots:
    [filenameIndex] runs from [i] up to [dotIndex]; the first character
    that is not a dot makes the split happen. [fuel] is [dotIndex - i]. *)
Fixpoint has_non_dot (p : string) (i : nat) (fuel : nat) : bool :=
  match fuel with
  | O => false
  | S fuel' =>
      match String.get i p with
      | Some a => if Ascii.eqb a "."%char then has_non_dot p (S i) fuel' else true
      | None => true
      end
  end.

(** [posixpath.splitext(p)]: (root, ext). *)
Definition splitext (p : string) : string * string :=
  let sepIndex := rfind "/"%char p in
  let dotIndex := rfind "."%char p in
  if (sepIndex <? dotIndex) &&
     has_non_dot p (Z.to_nat (sepIndex + 1)) (Z.to_nat (dotIndex - (sepIndex + 1)))
  then (take_str (Z.to_nat dotIndex) p, drop_str (Z.to_nat dotIndex) p)
  else (p, EmptyString).

(** [posixpath.join(a, b)]. *)
Definition path_join (a b : string) : string :=
  if startswith "/"%char b then b
  else if falsy a || endswith "/"%char a then a +:+ b
  else a +:+ "/" +:+ b.

(** [posixpath.split(p)]: (head, tail) around the last slash.  The head's
    trailing slashes are stripped unless it consists of slashes only; the
    paths built here have a head without a trailing slash. *)
Definition path_dirname (p : string) : string :=
  take_str (Z.to_nat (rfind "/"%char p)) p.

Definition path_basename (p : string) : string :=
  drop_str (Z.to_nat (rfind "/"%char p + 1)) p.

(** One lowercase hexadecimal digit. *)
Definition hex_digit (d : N) : ascii :=
  if (d <? 10)%N then ascii_of_N (48 + d) else ascii_of_N (87 + d).

(** ['%0*x' % (width, n)] for [n < 16^width]: [width] hex digits,
    most significant first. *)
Fixpoint hex_fixed (width : nat) (n : N) : string :=
  match width with
  | O => EmptyString
  | S w => hex_fixed w (n / 16) +:+ chr (hex_digit (n mod 16))
  end.

(** [uuid.UUID(int=..., version=4)] of 16 random bytes read as the integer
    [r]: the variant bits are set to RFC 4122 and the version nibble to 4. *)
Definition uuid4_int (r : N) : N :=
  let i := N.land r (N.ones 128) in
  let i := N.ldiff i (N.shiftl 0xc000 48) in
  let i := N.lor i (N.shiftl 0x8000 48) in
  let i := N.ldiff i (N.shiftl 0xf000 64) in
  N.lor i (N.shiftl 4 76).

(** [str(u)] of a UUID: 32 hex digits grouped 8-4-4-4-12. *)
Definition uuid_str (u : N) : string :=
  let h := hex_fixed 32 u in
  take_str 8 h +:+ "-" +:+ take_str 4 (drop_str 8 h) +:+ "-" +:+
  take_str 4 (drop_str 12 h) +:+ "-" +:+ take_str 4 (drop_str 16 h) +:+ "-" +:+
  drop_str 20 h.

(** [f"{n / (1024*1024):.1f}"] for a byte count [n].  The float quotient
    [n / 2^20] is exact (a power-of-two divisor) for every [n] below 2^53,
    and [.1f] rounds the exact value to the nearest tenth, ties to even. *)
Definition tenths_of_mb (n : Z) : Z :=
  let q := (10 * n) / 1048576 in
  let r := (10 * n) mod 1048576 in
  if (524288 <? r) || ((r =? 524288) && Z.odd q) then q + 1 else q.

Definition format_mb (n : Z) : string :=
  let t := tenths_of_mb n in
  str_N (Z.to_N (t / 10)) +:+ "." +:+ str_N (Z.to_N (t mod 10)).

(** An f-string is a sequence of literal pieces and replacement fields;
    formatting substitutes each field by the [str] of its value. *)
Inductive fpart (F : Type) : Type :=
| Lit (s : string)
| Field (f : F).
Arguments Lit {F} s.
Arguments Field {F} f.

Fixpoint format {F : Type} (value : F -> string) (t : list (fpart F)) : string :=
  match t with
  | [] => EmptyString
  | Lit s :: t' => s +:+ format value t'
  | Field f :: t' => value f +:+ format value t'
  end.

(** The ASCII characters [str.isspace] accepts: tab to carriage return,
    the four separators 28 to 31, and the space. *)
Definition is_space (a : ascii) : bool :=
  let n := N_of_ascii a in
  ((9 <=? n) && (n <=? 13) || (28 <=? n) && (n <=? 32))%N.

(** [s.lstrip()], [s.rstrip()] and [s.strip()] on white space.  Exact for
    ASCII strings; the white-space characters beyond ASCII, which UTF-8
    writes in several bytes, are not recognised. *)
Fixpoint lstrip (s : string) : string :=
  match s with
  | EmptyString => EmptyString
  | String a s' => if is_space a then lstrip s' else s
  end.

Fixpoint rstrip (s : string) : string :=
  match s with
  | EmptyString => EmptyString
  | String a s' =>
      match rstrip s' with
      | EmptyString => if is_space a then EmptyString else String a EmptyString
      | r => String a r
      end
  end.

Definition strip (s : string) : string := rstrip (lstrip s).

(** Every character of [s] is ASCII. *)
Fixpoint is_ascii (s : string) : bool :=
  match s with
  | EmptyString => true
  | String a s' => (N_of_ascii a <? 128)%N && is_ascii s'
  end.

End Py.

(* ===================================================================== *)
(** ** Exceptions, the outside world and the effect monad *)
(* ===================================================================== *)

(** A raised Python exception, kept as its class name and message.
    [PyException] is an instance of a class that derives from [Exception];
    [PyBaseException] is an instance of a class that derives from
    [BaseException] only (KeyboardInterrupt, SystemExit, GeneratorExit,
    asyncio.CancelledError), which no [except Exception] clause catches;
    [HTTPException] is FastAPI's, which derives from [Exception] and which
    the upload handler raises and tells apart. *)
Inductive exn : Type :=
| PyException (cls : string) (msg : string)
| PyBaseException (cls : string) (msg : string)
| HTTPException (status_code : Z) (detail : string).

(** [isinstance(e, Exception)] *)
Definition is_Exception (e : exn) : bool :=
  match e with
  | PyBaseException _ _ => false
  | PyException _ _ | HTTPException _ _ => true
  end.

(** [str(e)]; Starlette prints an [HTTPException] as "status: detail". *)
Definition exn_str (e : exn) : string :=
  match e with
  | PyException _ msg => msg
  | PyBaseException _ msg => msg
  | HTTPException c d => Py.str_N (Z.to_N c) +:+ ": " +:+ d
  end.

(** Indexing [l[-1]] on an empty list. *)
Definition IndexError : exn := PyException "IndexError" "list index out of range".

Definition HTTP_400_BAD_REQUEST : Z := 400.
Definition HTTP_500_INTERNAL_SERVER_ERROR : Z := 500.

(** What a call gives back: a value, or an exception. *)
Inductive outcome (A : Type) : Type :=
| Return (a : A)
| Raise (e : exn).
Arguments Return {A} a.
Arguments Raise {A} e.

(** A retrieved snippet or a parsed chunk ([langchain] Document). *)
Record Document : Type := { page_content : string }.

(** A chat message.  [type] is the attribute [generate_direct] probes with
    [hasattr]; LangChain messages carry "human", "ai" or "system" there. *)
Record Message : Type := { type : option string; content : string }.

Definition HumanMessage (text : string) : Message :=
  {| type := Some "human"%string; content := text |}.

(** The object a search tool returns.  The program only stores it and
    formats it into a prompt, so it is kept as its [str] rendering. *)
Record tool_result : Type := { tool_str : string }.

(** What [context] can hold: a string, or a tool result. *)
Inductive context_value : Type :=
| CtxStr (s : string)
| CtxTool (r : tool_result).

Definition context_str (c : context_value) : string :=
  match c with CtxStr s => s | CtxTool r => tool_str r end.

(** [AgentState]: [messages] is always there; the other keys are read with
    [state.get], so each may be missing. *)
Record AgentState : Type := {
  messages : list Message;
  session_id : option string;
  use_rag : option bool;
  system_prompt : option string;
  context : option context_value
}.

(** The partial dictionary a node returns. *)
Record Update : Type := {
  upd_messages : option (list Message);
  upd_context : option context_value
}.

(** A chat model object: [ChatGoogleGenerativeAI(model, temperature, ...)]. *)
Record ChatModel : Type := {
  model : string;
  temperature : Q;
  convert_system_message_to_human : bool
}.

(** One entry of the list handed to [llm.invoke]: a message object, or a
    (role, content) tuple. *)
Inductive llm_input : Type :=
| InMessage (m : Message)
| InTuple (role : string) (text : string).

(** Calls that leave the process, in the order they are made. *)
Inductive call : Type :=
| GetRetriever (sid : string)
| RetrieverInvoke (sid : string) (query : string)
| LlmInvoke (llm : ChatModel) (msgs : list llm_input)
| SearchInvoke (query : string)
| ParseFile (path : string) (ext : string)
| AddDocuments (chunks : list Document) (sid : string)
| FsOpenWb (path : string)
| FsRemove (path : string).

(** How writing the temporary file ends: [open] can fail, the copy can fail
    after some bytes, or everything is written. *)
Inductive write_result : Type :=
| WriteOk
| OpenFails (e : exn)
| CopyFails (written : nat) (e : exn).

(** The world outside the handlers: the files on disk, the upload stream of
    the request being served, the number of UUIDs drawn so far, and the log
    of outside calls. *)
Record world : Type := {
  fs : gmap string (list byte);
  stream_pos : nat;
  stream_closed : bool;
  uuid_draws : nat;
  calls : list call
}.

Definition set_fs (f : gmap string (list byte) -> gmap string (list byte)) (w : world) : world :=
  {| fs := f (fs w); stream_pos := stream_pos w; stream_closed := stream_closed w;
     uuid_draws := uuid_draws w; calls := calls w |}.

Definition set_stream_pos (p : nat) (w : world) : world :=
  {| fs := fs w; stream_pos := p; stream_closed := stream_closed w;
     uuid_draws := uuid_draws w; calls := calls w |}.

Definition set_stream_closed (b : bool) (w : world) : world :=
  {| fs := fs w; stream_pos := stream_pos w; stream_closed := b;
     uuid_draws := uuid_draws w; calls := calls w |}.

Definition set_uuid_draws (n : nat) (w : world) : world :=
  {| fs := fs w; stream_pos := stream_pos w; stream_closed := stream_closed w;
     uuid_draws := n; calls := calls w |}.

Definition add_call (c : call) (w : world) : world :=
  {| fs := fs w; stream_pos := stream_pos w; stream_closed := stream_closed w;
     uuid_draws := uuid_draws w; calls := calls w ++ [c] |}.

(** The opaque collaborators and the process environment.  Each backend
    answers a call with a value or an exception. *)
Class Backends : Type := {
  (** [os.getenv("GEMINI_MODEL")] and [os.getenv("TAVILY_API_KEY")] *)
  GEMINI_MODEL : option string;
  TAVILY_API_KEY : option string;
  (** [app.services.vector_store] *)
  retriever : Type;
  get_retriever : string -> outcome retriever;
  retriever_invoke : retriever -> string -> outcome (list Document);
  add_documents_to_store : list Document -> string -> outcome unit;
  (** [llm.invoke(messages)] of a chat model *)
  llm_invoke : ChatModel -> list llm_input -> outcome Message;
  (** [TavilySearchResults(...).invoke({"query": q})] *)
  search_invoke : string -> outcome tool_result;
  (** [app.services.document_parser.parse_file]; it reads the file *)
  parse_file : string -> string -> gmap string (list byte) -> outcome (list Document);
  (** the 16 random bytes behind the n-th [uuid.uuid4()] *)
  urandom16 : nat -> N;
  (** the fate of [open(path, "wb")] followed by [shutil.copyfileobj] *)
  disk_write : string -> list byte -> write_result
}.

(** Computations that read and change the world and may raise.  An
    exception keeps the effects made before it. *)
Definition M (A : Type) : Type := world -> outcome A * world.

#[global] Instance M_ret : MRet M := fun A a w => (Return a, w).

#[global] Instance M_bind : MBind M := fun A B k m w =>
  match m w with
  | (Return a, w') => k a w'
  | (Raise e, w') => (Raise e, w')
  end.

Definition raise {A : Type} (e : exn) : M A := fun w => (Raise e, w).

Definition lift {A : Type} (o : outcome A) : M A := fun w => (o, w).

(** [try: body  except Exception as e: handler(e)]: the handler runs for an
    exception that derives from [Exception]; any other exception goes on
    through the clause. *)
Definition try_except {A : Type} (body : M A) (handler : exn -> M A) : M A := fun w =>
  match body w with
  | (Return a, w') => (Return a, w')
  | (Raise e, w') => if is_Exception e then handler e w' else (Raise e, w')
  end.

(** [try: body  finally: cleanup]; an exception of [cleanup] replaces the
    body's result. *)
Definition try_finally {A : Type} (body : M A) (cleanup : M unit) : M A := fun w =>
  match body w with
  | (r, w') =>
      match cleanup w' with
      | (Return _, w'') => (r, w'')
      | (Raise e, w'') => (Raise e, w'')
      end
  end.

(** An outside call: it is logged, then answered. *)
Definition outside {A : Type} (c : call) (answer : outcome A) : M A := fun w =>
  (answer, add_call c w).

Definition read_world {A : Type} (f : world -> A) : M A := fun w => (Return (f w), w).

Definition update_world (f : world -> world) : M unit := fun w => (Return tt, f w).

(* ===================================================================== *)
(** ** app/agent/nodes.py *)
(* ===================================================================== *)

Section Nodes.
Context `{B : Backends}.

(** [gemini_model = os.getenv("GEMINI_MODEL", "gemini-1.5-pro")] *)
Definition gemini_model : string := default "gemini-1.5-pro"%string GEMINI_MODEL.

Definition llm_gemini : ChatModel :=
  {| model := gemini_model; temperature := 0%Q;
     convert_system_message_to_human := false |}.

Definition llm_gemini_rag : ChatModel :=
  {| model := gemini_model; temperature := 0.7%Q;
     convert_system_message_to_human := true |}.

(** [state["messages"][-1]] *)
Definition last_message (state : AgentState) : outcome Message :=
  match last (messages state) with
  | Some m => Return m
  | None => Raise IndexError
  end.

(** [route_to_llm]: the keyword router; it calls nothing outside. *)
Definition route_to_llm (state : AgentState) : outcome string :=
  match last_message state with
  | Raise e => Raise e
  | Return m =>
      let lastmessage := content m in
      if Py.contains "creative" (Py.lower lastmessage) || Py.contains "write" (Py.lower lastmessage)
      then Return "gemini"%string
      else if Py.contains "code" (Py.lower lastmessage) || Py.contains "python" (Py.lower lastmessage)
      then Return "groq"%string
      else Return "ginini"%string
  end.

(** [check_for_rag]: [state.get("use_rag", False)] decides the edge. *)
Definition check_for_rag (state : AgentState) : string :=
  if default false (use_rag state) then "rag_retrieval"%string else "generate_direct"%string.

Definition no_session_diagnostic : string :=
  "Error: No session ID provided for document retrieval."%string.

Definition context_update (c : context_value) : Update :=
  {| upd_messages := None; upd_context := Some c |}.

Definition messages_update (ms : list Message) : Update :=
  {| upd_messages := Some ms; upd_context := None |}.

(** [retrieve_from_rag] *)
Definition retrieve_from_rag (state : AgentState) : M Update :=
  m ← lift (last_message state);
  let user_query := content m in
  if Py.falsy_opt (session_id state) then
    mret (context_update (CtxStr no_session_diagnostic))
  else
    let sid := default EmptyString (session_id state) in
    retriever ← outside (GetRetriever sid) (get_retriever sid);
    retrieved_docs ← outside (RetrieverInvoke sid user_query) (retriever_invoke retriever user_query);
    let context := Py.join (Py.nl +:+ Py.nl) (map page_content retrieved_docs) in
    mret (context_update (CtxStr context)).

(** [app.tools.web_search.get_web_search_tool]: the tool exists only when
    the API key is set and not empty. *)
Definition get_web_search_tool : option (string -> outcome tool_result) :=
  if Py.falsy_opt TAVILY_API_KEY then None else Some search_invoke.

Definition search_unavailable : string :=
  "Web search is not available. Please provide a TAVILY_API_KEY in your environment variables."%string.

(** [run_web_search] *)
Definition run_web_search (state : AgentState) : M Update :=
  match get_web_search_tool with
  | None => mret (context_update (CtxStr search_unavailable))
  | Some search_tool =>
      try_except
        (m ← lift (last_message state);
         search_results ← outside (SearchInvoke (content m)) (search_tool (content m));
         mret (context_update (CtxTool search_results)))
        (fun e => mret (context_update (CtxStr ("Web search failed: " +:+ exn_str e))))
  end.

Definition default_system_prompt : string := "You are a helpful AI assistant."%string.

(** The replacement fields of the prompt of [generate_with_context]. *)
Inductive rag_field : Type := F_user_system_prompt | F_context | F_user_query.

(** The fixed instructions of the f-string of [generate_with_context]:
    everything between the system prompt and the snippets block. *)
Definition rag_instructions : list (Py.fpart rag_field) :=
  [ Py.Lit Py.nl;
    Py.Lit Py.nl;
    Py.Lit "    Use the following document snippets as your primary source of knowledge to answer the user's question. The snippets are from a document the user just uploaded.";
    Py.Lit Py.nl;
    Py.Lit Py.nl;
    Py.Lit "    If the user's question is general, like ";
    Py.Lit Py.dquote; Py.Lit "what is this document about?"; Py.Lit Py.dquote;
    Py.Lit " or ";
    Py.Lit Py.dquote; Py.Lit "summarize this file"; Py.Lit Py.dquote;
    Py.Lit ", provide a concise summary of the provided context.";
    Py.Lit Py.nl;
    Py.Lit Py.nl;
    Py.Lit "    If the user asks a specific question, answer it directly using only the information in the snippets.";
    Py.Lit Py.nl;
    Py.Lit Py.nl;
    Py.Lit "    If the snippets do not contain the answer to a specific question, state that the provided document doesn't seem to contain that information.";
    Py.Lit Py.nl;
    Py.Lit Py.nl ]%string.

(** The f-string of [generate_with_context], line by line. *)
Definition rag_template : list (Py.fpart rag_field) :=
  [ Py.Field F_user_system_prompt ] ++
  rag_instructions ++
  [ Py.Lit "    DOCUMENT SNIPPETS:"; Py.Lit Py.nl;
    Py.Lit "    ---"; Py.Lit Py.nl;
    Py.Lit "    "; Py.Field F_context; Py.Lit Py.nl;
    Py.Lit "    ---"; Py.Lit Py.nl;
    Py.Lit Py.nl;
    Py.Lit "    USER'S QUESTION:"; Py.Lit Py.nl;
    Py.Lit "    "; Py.Lit Py.dquote; Py.Field F_user_query; Py.Lit Py.dquote; Py.Lit Py.nl;
    Py.Lit "    " ]%string.

Definition rag_prompt (user_system_prompt context user_query : string) : string :=
  Py.format
    (fun f => match f with
              | F_user_system_prompt => user_system_prompt
              | F_context => context
              | F_user_query => user_query
              end)
    rag_template.

(** [state["messages"][:-1] + [("user", prompt)]] *)
Definition rag_messages_for_llm (state : AgentState) (prompt : string) : list llm_input :=
  map InMessage (removelast (messages state)) ++ [InTuple "user" prompt].

(** [generate_with_context] *)
Definition generate_with_context (state : AgentState) : M Update :=
  m ← lift (last_message state);
  let user_query := content m in
  let context := default EmptyString (context_str <$> context state) in
  let user_system_prompt := default default_system_prompt (system_prompt state) in
  let prompt := rag_prompt user_system_prompt context user_query in
  let messages_for_llm := rag_messages_for_llm state prompt in
  response ← outside (LlmInvoke llm_gemini messages_for_llm) (llm_invoke llm_gemini messages_for_llm);
  mret (messages_update [response]).

(** [(msg.type if hasattr(msg, 'type') else "user", msg.content)] *)
Definition role_content (msg : Message) : llm_input :=
  InTuple (default "user"%string (type msg)) (content msg).

Definition direct_messages_for_llm (state : AgentState) : list llm_input :=
  [InTuple "system" (default default_system_prompt (system_prompt state))] ++
  map role_content (messages state).

(** [generate_direct] *)
Definition generate_direct (state : AgentState) : M Update :=
  let messages_for_llm := direct_messages_for_llm state in
  response ← outside (LlmInvoke llm_gemini messages_for_llm) (llm_invoke llm_gemini messages_for_llm);
  mret (messages_update [response]).

(** [agent_entry] returns the empty dictionary. *)
Definition agent_entry (state : AgentState) : M Update :=
  mret {| upd_messages := None; upd_context := None |}.

(** [generate_gemini] *)
Definition generate_gemini (state : AgentState) : M Update :=
  m ← lift (last_message state);
  let last_msg := Py.strip (content m) in
  if Py.falsy last_msg then
    raise (PyException "ValueError"
             ("Last message content is empty " +:+ Py.em_dash +:+ " cannot invoke Gemini."))
  else
    let messages := [InMessage (HumanMessage last_msg)] in
    response ← outside (LlmInvoke llm_gemini messages) (llm_invoke llm_gemini messages);
    mret (messages_update [response]).

End Nodes.

(* ===================================================================== *)
(** ** The routing graph and app/api/v1/endpoints/chat.py *)
(* ===================================================================== *)

Module ChatRequest.
(** The request body; pydantic has filled in the defaults
    ([use_rag = False], the long default [system_prompt]). *)
Record t : Type := {
  session_id : string;
  message : string;
  use_rag : bool;
  system_prompt : string
}.
End ChatRequest.

Section Graph.
Context `{B : Backends}.

(** Modelled from the spec: [app/agent/state.py] is not among the sources.
    Section 3 of the specification: [messages] is append-only, new messages
    are added by generation nodes; [context] is populated by the retrieval
    or the web-search node; the other keys are immutable after entry. *)
Definition apply_update (state : AgentState) (u : Update) : AgentState :=
  {| messages := messages state ++ default [] (upd_messages u);
     session_id := session_id state;
     use_rag := use_rag state;
     system_prompt := system_prompt state;
     context := match upd_context u with Some c => Some c | None => context state end |}.

(** Modelled from the spec: [app/agent/graph.py] ([create_agent_graph]) is
    not among the sources.  Section 4.1 of the specification: entry, then
    route_check, then either retrieve_context followed by
    generate_with_context, or generate_direct, then end; the value of the
    routing node selects the edge and is not folded into the state. *)
Definition agent_executer (inputs : AgentState) : M AgentState :=
  u0 ← agent_entry inputs;
  let s0 := apply_update inputs u0 in
  if String.eqb (check_for_rag s0) "rag_retrieval" then
    u1 ← retrieve_from_rag s0;
    let s1 := apply_update s0 u1 in
    u2 ← generate_with_context s1;
    mret (apply_update s1 u2)
  else
    u1 ← generate_direct s0;
    mret (apply_update s0 u1).

(** The [inputs] dictionary [chat] builds from a request. *)
Definition chat_inputs (request : ChatRequest.t) : AgentState :=
  {| messages := [HumanMessage (ChatRequest.message request)];
     use_rag := Some (ChatRequest.use_rag request);
     session_id := Some (ChatRequest.session_id request);
     system_prompt := Some (ChatRequest.system_prompt request);
     context := None |}.

Definition chat_error_response : string :=
  "Sorry, an error occurred while processing your request."%string.

(** [chat]: the value under "response". *)
Definition chat (request : ChatRequest.t) : M string :=
  try_except
    (response_state ← agent_executer (chat_inputs request);
     last_message ← lift (last_message response_state);
     mret (content last_message))
    (fun e => mret chat_error_response).

(** [chat] with the compiled graph [agent_executer] left open: the handler
    of chat.py around any executor. *)
Definition chat_with (executer : AgentState -> M AgentState) (request : ChatRequest.t)
  : M string :=
  try_except
    (response_state ← executer (chat_inputs request);
     last_message ← lift (last_message response_state);
     mret (content last_message))
    (fun e => mret chat_error_response).

End Graph.

(* ===================================================================== *)
(** ** app/api/v1/endpoints/upload.py *)
(* ===================================================================== *)

(** The uploaded file as the handler receives it: the client's file name
    (possibly missing or empty) and the bytes of the body. *)
Record UploadFile : Type := {
  filename : option string;
  body : list byte
}.

(** The dictionary returned on success. *)
Record UploadResponse : Type := {
  status : string;
  resp_filename : string;
  chunks_added : nat;
  resp_message : string
}.

Definition UPLOAD_DIR : string := "temp_uploads"%string.

Definition MAX_FILE_SIZE : Z := 50 * 1024 * 1024.

Definition len {A : Type} (l : list A) : Z := Z.of_nat (length l).

Definition closed_file_error : exn :=
  PyException "ValueError" "I/O operation on closed file.".

Section Upload.
Context `{B : Backends}.

(** [await file.read()]: the rest of the stream. *)
Definition file_read (file : UploadFile) : M (list byte) := fun w =>
  if stream_closed w then (Raise closed_file_error, w)
  else (Return (drop (stream_pos w) (body file)),
        set_stream_pos (Nat.max (stream_pos w) (length (body file))) w).

(** [await file.seek(0)] *)
Definition file_seek (file : UploadFile) (pos : nat) : M unit := fun w =>
  if stream_closed w then (Raise closed_file_error, w)
  else (Return tt, set_stream_pos pos w).

(** [await file.close()] *)
Definition file_close (file : UploadFile) : M unit :=
  update_world (set_stream_closed true).

(** [uuid.uuid4()] *)
Definition uuid4 : M N := fun w =>
  (Return (Py.uuid4_int (urandom16 (uuid_draws w))), set_uuid_draws (S (uuid_draws w)) w).

(** [with open(file_path, "wb") as buffer: shutil.copyfileobj(file.file, buffer)]:
    opening creates or truncates the file, the copy then writes the rest of
    the stream into it. *)
Definition save_upload (file : UploadFile) (file_path : string) : M unit := fun w =>
  let data := drop (stream_pos w) (body file) in
  let w := add_call (FsOpenWb file_path) w in
  match disk_write file_path data with
  | OpenFails e => (Raise e, w)
  | CopyFails written e =>
      if stream_closed w then (Raise closed_file_error, set_fs (insert file_path []) w)
      else (Raise e, set_fs (insert file_path (take written data)) w)
  | WriteOk =>
      if stream_closed w then (Raise closed_file_error, set_fs (insert file_path []) w)
      else (Return tt,
            set_stream_pos (Nat.max (stream_pos w) (length (body file)))
              (set_fs (insert file_path data) w))
  end.

(** [os.path.exists(file_path)] *)
Definition path_exists (file_path : string) : M bool :=
  read_world (fun w => bool_decide (is_Some (fs w !! file_path))).

(** [os.remove(file_path)] of a file that exists. *)
Definition os_remove (file_path : string) : M unit := fun w =>
  (Return tt, set_fs (delete file_path) (add_call (FsRemove file_path) w)).

Definition too_large_detail (size : Z) : string :=
  "File too large. Maximum size allowed is 50MB. Your file is " +:+ Py.format_mb size +:+ "MB.".

Definition parse_error_detail (name : string) (e : exn) : string :=
  "Could not parse the file '" +:+ name +:+
  "'. The file might be corrupted or in an unsupported format. Error: " +:+ exn_str e.

Definition no_text_detail (name : string) : string :=
  "Could not extract any text content from the file: " +:+ name +:+
  ". The file might be empty or contain only images.".

Definition embedding_error_detail (e : exn) : string :=
  "Failed to create embeddings for the document. " +:+ exn_str e.

Definition unexpected_error_detail (e : exn) : string :=
  "An unexpected error occurred while processing the file: " +:+ exn_str e.

(** The path the handler stores the upload at, for the UUID it drew. *)
Definition temp_path (name : string) (u : N) : string :=
  let file_extension := (Py.splitext name).2 in
  let unique_filename := Py.uuid_str u +:+ file_extension in
  Py.path_join UPLOAD_DIR unique_filename.

(** The body of the [try] block of [upload_file]. *)
Definition parse_and_embed (file : UploadFile) (name session_id file_path file_extension : string)
  : M UploadResponse :=
  _ ← save_upload file file_path;
  document_chunks ←
    try_except
      (files ← read_world fs;
       outside (ParseFile file_path file_extension) (parse_file file_path file_extension files))
      (fun e => raise (HTTPException HTTP_400_BAD_REQUEST (parse_error_detail name e)));
  match document_chunks with
  | [] => raise (HTTPException HTTP_400_BAD_REQUEST (no_text_detail name))
  | _ =>
      _ ← try_except
            (outside (AddDocuments document_chunks session_id)
                     (add_documents_to_store document_chunks session_id))
            (fun e => raise (HTTPException HTTP_500_INTERNAL_SERVER_ERROR (embedding_error_detail e)));
      mret {| status := "success";
              resp_filename := name;
              chunks_added := length document_chunks;
              resp_message := "File processed and added to the knowledge base successfully." |}
  end.

(** The [finally] block of [upload_file]. *)
Definition cleanup (file : UploadFile) (file_path : string) : M unit :=
  there ← path_exists file_path;
  _ ← (if there : bool then os_remove file_path else mret tt);
  file_close file.

(** The [except] clauses of [upload_file]: an [HTTPException] is raised
    again, any other exception becomes a 500. *)
Definition upload_handlers (e : exn) : M UploadResponse :=
  match e with
  | HTTPException _ _ => raise e
  | PyException _ _ =>
      raise (HTTPException HTTP_500_INTERNAL_SERVER_ERROR (unexpected_error_detail e))
  | PyBaseException _ _ => raise e
  end.

(** [upload_file] *)
Definition upload_file (file : UploadFile) (session_id : string) : M UploadResponse :=
  if Py.falsy_opt (filename file) then
    raise (HTTPException HTTP_400_BAD_REQUEST "No file name provided.")
  else
    let name := default EmptyString (filename file) in
    file_content ← file_read file;
    if MAX_FILE_SIZE <? len file_content then
      raise (HTTPException HTTP_400_BAD_REQUEST (too_large_detail (len file_content)))
    else
      _ ← file_seek file 0;
      let file_extension := (Py.splitext name).2 in
      u ← uuid4;
      let unique_filename := Py.uuid_str u +:+ file_extension in
      let file_path := Py.path_join UPLOAD_DIR unique_filename in
      try_finally
        (try_except
           (parse_and_embed file name session_id file_path file_extension)
           upload_handlers)
        (cleanup file file_path).

End Upload.

(* ===================================================================== *)
(** ** Vocabulary of the statements, and sample inputs *)
(* ===================================================================== *)

(** The world as a handler finds it when a request arrives: the upload
    stream is open and stands at its first byte. *)
Definition at_entry (w : world) : world :=
  set_stream_closed false (set_stream_pos 0 w).

(** The outside calls made between [w] and [w']. *)
Definition new_calls (w w' : world) : list call :=
  drop (length (calls w)) (calls w').

Definition is_retrieval_call (c : call) : bool :=
  match c with GetRetriever _ | RetrieverInvoke _ _ => true | _ => false end.

Definition is_ingestion_call (c : call) : bool :=
  match c with ParseFile _ _ | AddDocuments _ _ => true | _ => false end.

(** The path a file-system call touches. *)
Definition fs_call_path (c : call) : option string :=
  match c with FsOpenWb p | FsRemove p => Some p | _ => None end.

(** The temperature a model call was made with. *)
Definition call_temperature (c : call) : option Q :=
  match c with LlmInvoke llm _ => Some (temperature llm) | _ => None end.

(** An upload passes validation: it has a file name and at most 50 MB. *)
Definition passes_validation (file : UploadFile) : bool :=
  negb (Py.falsy_opt (filename file)) && (len (body file) <=? MAX_FILE_SIZE).

(** [c] stands somewhere in [s]. *)
Fixpoint occurs (c : ascii) (s : string) : bool :=
  match s with
  | EmptyString => false
  | String a s' => Ascii.eqb a c || occurs c s'
  end.

(** Every character of [s] is white space. *)
Fixpoint all_space (s : string) : bool :=
  match s with
  | EmptyString => true
  | String a s' => Py.is_space a && all_space s'
  end.

(** The first and the last character of [s]. *)
Definition first_char (s : string) : option ascii :=
  match s with String a _ => Some a | EmptyString => None end.

Fixpoint last_char (s : string) : option ascii :=
  match s with
  | EmptyString => None
  | String a EmptyString => Some a
  | String _ s' => last_char s'
  end.

(** An exception FastAPI turns into an error response. *)
Definition is_http_exception (e : exn) : bool :=
  match e with HTTPException _ _ => true | _ => false end.

(** The grouping 8-4-4-4-12 that [uuid_str] applies to the 32 hex digits,
    and the way back from the grouped string. *)
Definition grouped (h : string) : string :=
  Py.take_str 8 h +:+ "-" +:+ Py.take_str 4 (Py.drop_str 8 h) +:+ "-" +:+
  Py.take_str 4 (Py.drop_str 12 h) +:+ "-" +:+ Py.take_str 4 (Py.drop_str 16 h) +:+ "-" +:+
  Py.drop_str 20 h.

Definition ungrouped (s : string) : string :=
  Py.take_str 8 s +:+ Py.take_str 4 (Py.drop_str 9 s) +:+
  Py.take_str 4 (Py.drop_str 14 s) +:+ Py.take_str 4 (Py.drop_str 19 s) +:+
  Py.drop_str 24 s.

(** The bits of a version-4 UUID that [uuid4] sets itself, the variant
    (bits 62 and 63) and the version (bits 76 to 79); the value it gives
    them; and the 122 other bits, which it takes from the random bytes. *)
Definition uuid_fixed_bits : N := N.lor (N.shiftl 0xc000 48) (N.shiftl 0xf000 64).

Definition uuid_version_4 : N := N.lor (N.shiftl 0x8000 48) (N.shiftl 4 76).

Definition uuid_random_bits : N := N.ldiff (N.ones 128) uuid_fixed_bits.

(** The instructions hold no replacement field: their text is fixed. *)
Definition rag_instructions_text : string :=
  Py.format (fun _ : rag_field => EmptyString) rag_instructions.

(** Between [w] and [w'] no file other than [path] changed, and every
    file-system call made was on [path]. *)
Definition touches_only (path : string) (w w' : world) : Prop :=
  (forall p : string, p <> path -> fs w' !! p = fs w !! p) /\
  exists cs : list call,
    calls w' = calls w ++ cs /\
    Forall (fun c => fs_call_path c = None \/ fs_call_path c = Some path) cs.

(** Every run of [m] touches only [path]. *)
Definition keeps {A : Type} (path : string) (m : M A) : Prop :=
  forall w : world, touches_only path w (m w).2.

(** No run of [m] draws a UUID. *)
Definition draws_none {A : Type} (m : M A) : Prop :=
  forall w : world, uuid_draws (m w).2 = uuid_draws w.

Section UploadVocabulary.
Context `{B : Backends}.

(** The world in which the [try] block of a valid upload starts. *)
Definition before_try (file : UploadFile) (w : world) : world :=
  set_uuid_draws (S (uuid_draws w))
    (set_stream_pos 0 (set_stream_pos (length (body file)) (at_entry w))).

(** The path a valid upload arriving in [w] is stored at. *)
Definition upload_path (file : UploadFile) (w : world) : string :=
  temp_path (default EmptyString (filename file))
            (Py.uuid4_int (urandom16 (uuid_draws w))).

End UploadVocabulary.

Module Sample.

Definition snippets : list Document :=
  [ {| page_content := "A" |}; {| page_content := "B" |} ].

Definition reply : Message := {| type := Some "ai"%string; content := "reply"%string |}.

Definition network_down : exn := PyException "ConnectionError" "network unreachable".

(** The cancellation of an awaited call. *)
Definition cancelled : exn := PyBaseException "CancelledError" EmptyString.

(** Backends that answer, except for the search tool, which fails. *)
Definition backends : Backends :=
  {| GEMINI_MODEL := None;
     TAVILY_API_KEY := Some "key"%string;
     retriever := string;
     get_retriever := fun sid => Return sid;
     retriever_invoke := fun _ _ => Return snippets;
     add_documents_to_store := fun _ _ => Return tt;
     llm_invoke := fun _ _ => Return reply;
     search_invoke := fun _ => Raise network_down;
     parse_file := fun path _ files =>
       match files !! path with
       | Some (_ :: _) => Return snippets
       | Some [] => Return []
       | None => Raise (PyException "FileNotFoundError" "no such file")
       end;
     urandom16 := fun n => N.of_nat n;
     disk_write := fun _ _ => WriteOk |}.

(** The same, with a vector store whose retriever fails. *)
Definition store_down : Backends :=
  {| GEMINI_MODEL := None;
     TAVILY_API_KEY := Some "key"%string;
     retriever := string;
     get_retriever := fun sid => Return sid;
     retriever_invoke := fun _ _ => Raise network_down;
     add_documents_to_store := fun _ _ => Raise network_down;
     llm_invoke := fun _ _ => Return reply;
     search_invoke := fun _ => Raise network_down;
     parse_file := fun _ _ _ => Return snippets;
     urandom16 := fun n => N.of_nat n;
     disk_write := fun _ _ => WriteOk |}.

Definition w0 : world :=
  {| fs := ∅; stream_pos := 0; stream_closed := false; uuid_draws := 0; calls := [] |}.

Definition hello : ChatRequest.t :=
  {| ChatRequest.session_id := "s1"; ChatRequest.message := "Hello";
     ChatRequest.use_rag := false; ChatRequest.system_prompt := "Be brief." |}.

Definition summarize : ChatRequest.t :=
  {| ChatRequest.session_id := "s1"; ChatRequest.message := "Summarize this";
     ChatRequest.use_rag := true; ChatRequest.system_prompt := "Be brief." |}.

Definition no_session : ChatRequest.t :=
  {| ChatRequest.session_id := ""; ChatRequest.message := "Summarize this";
     ChatRequest.use_rag := true; ChatRequest.system_prompt := "Be brief." |}.

(** The state [generate_with_context] sees for [summarize]. *)
Definition summarize_with_context : AgentState :=
  {| messages := [HumanMessage "Summarize this"];
     session_id := Some "s1"%string; use_rag := Some true;
     system_prompt := Some "Be brief."%string;
     context := Some (CtxStr ("A" +:+ Py.nl +:+ Py.nl +:+ "B")) |}.

Definition notes : UploadFile :=
  {| filename := Some "../../etc/notes.final.TXT"%string;
     body := ["001"%byte; "002"%byte] |}.

(** A 60 MB upload. *)
Definition big_body : list byte := repeat "000"%byte (N.to_nat 62914560).

Definition big : UploadFile := {| filename := Some "big.pdf"%string; body := big_body |}.

(** A 60 MB upload whose file name is empty. *)
Definition big_nameless : UploadFile := {| filename := Some ""%string; body := big_body |}.

(** Backends whose search tool answers. *)
Definition searching : Backends :=
  {| GEMINI_MODEL := Some "gemini-2.0-flash"%string;
     TAVILY_API_KEY := Some "key"%string;
     retriever := string;
     get_retriever := fun sid => Return sid;
     retriever_invoke := fun _ _ => Return snippets;
     add_documents_to_store := fun _ _ => Return tt;
     llm_invoke := fun _ _ => Return reply;
     search_invoke := fun q => Return {| tool_str := "results for " +:+ q |};
     parse_file := fun _ _ _ => Raise (PyException "ValueError" "unsupported format");
     urandom16 := fun n => N.of_nat n;
     disk_write := fun _ _ => OpenFails (PyException "OSError" "disk full") |}.

End Sample.

(* ===================================================================== *)
(** ** Python's primitives on small inputs *)
(* ===================================================================== *)

Example lower_mixed : Py.lower "Write PYTHON code" = "write python code"%string.
Proof. reflexivity. Qed.

Example contains_mid : Py.contains "code" "barcodes" = true.
Proof. reflexivity. Qed.

Example join_two : Py.join (Py.nl +:+ Py.nl) ["A"; "B"]%string = ("A" +:+ Py.nl +:+ Py.nl +:+ "B").
Proof. reflexivity. Qed.

Example splitext_pdf : Py.splitext "dir.d/report.final.pdf" = ("dir.d/report.final", ".pdf")%string.
Proof. reflexivity. Qed.

Example splitext_dotfile : Py.splitext "/home/.bashrc" = ("/home/.bashrc", "")%string.
Proof. reflexivity. Qed.

Example splitext_dir_dot : Py.splitext "a.b/c" = ("a.b/c", "")%string.
Proof. reflexivity. Qed.

Example format_mb_60 : Py.format_mb 62914560 = "60.0"%string.
Proof. reflexivity. Qed.

Example format_mb_tie : Py.format_mb 262144 = "0.2"%string.
Proof. reflexivity. Qed.

Example uuid_str_shape :
  Py.uuid_str (Py.uuid4_int 0) = "00000000-0000-4000-8000-000000000000"%string.
Proof. reflexivity. Qed.

(* ===================================================================== *)
(** ** Running the monad *)
(* ===================================================================== *)

Lemma new_calls_add_call (c : call) (w : world) : new_calls w (add_call c w) = [c].
Proof. unfold new_calls, add_call; simpl. apply drop_app_length. Qed.

Lemma new_calls_refl (w : world) : new_calls w w = [].
Proof. unfold new_calls. apply drop_all. Qed.

Lemma bind_return {A C : Type} (m : M A) (k : A -> M C) (w w' : world) (a : A) :
  m w = (Return a, w') -> (m ≫= k) w = k a w'.
Proof. intros H. unfold mbind, M_bind. now rewrite H. Qed.

Lemma bind_raise {A C : Type} (m : M A) (k : A -> M C) (w w' : world) (e : exn) :
  m w = (Raise e, w') -> (m ≫= k) w = (Raise e, w').
Proof. intros H. unfold mbind, M_bind. now rewrite H. Qed.

Ltac run_monad :=
  unfold mbind, M_bind, mret, M_ret, lift, outside, raise, try_except, try_finally,
         read_world, update_world in *.

Lemma apply_update_empty (state : AgentState) :
  apply_update state {| upd_messages := None; upd_context := None |} = state.
Proof. destruct state; unfold apply_update; simpl. now rewrite app_nil_r. Qed.

Lemma check_for_rag_edge (state : AgentState) :
  String.eqb (check_for_rag state) "rag_retrieval" = bool_decide (use_rag state = Some true).
Proof. unfold check_for_rag. now destruct (use_rag state) as [[]|]. Qed.

Section NodeFacts.
Context `{B : Backends}.

Lemma generate_direct_run (state : AgentState) (w : world) :
  generate_direct state w =
    (match llm_invoke llm_gemini (direct_messages_for_llm state) with
     | Return response => Return (messages_update [response])
     | Raise e => Raise e
     end,
     add_call (LlmInvoke llm_gemini (direct_messages_for_llm state)) w).
Proof.
  unfold generate_direct. run_monad.
  now destruct (llm_invoke llm_gemini (direct_messages_for_llm state)).
Qed.

Lemma agent_executer_direct (state : AgentState) (w : world) :
  use_rag state <> Some true ->
  agent_executer state w =
    (match llm_invoke llm_gemini (direct_messages_for_llm state) with
     | Return response => Return (apply_update state (messages_update [response]))
     | Raise e => Raise e
     end,
     add_call (LlmInvoke llm_gemini (direct_messages_for_llm state)) w).
Proof.
  intros Hflag. unfold agent_executer, agent_entry.
  rewrite (bind_return _ _ w w {| upd_messages := None; upd_context := None |}) by reflexivity.
  cbv zeta. rewrite apply_update_empty, check_for_rag_edge.
  rewrite bool_decide_eq_false_2 by exact Hflag.
  unfold mbind, M_bind. rewrite generate_direct_run.
  now destruct (llm_invoke llm_gemini (direct_messages_for_llm state)).
Qed.

Lemma chat_direct_calls (request : ChatRequest.t) (w : world) :
  ChatRequest.use_rag request = false ->
  new_calls w (chat request w).2 =
    [LlmInvoke llm_gemini (direct_messages_for_llm (chat_inputs request))].
Proof.
  intros Hflag. unfold chat, try_except.
  unfold mbind at 1. unfold M_bind at 1.
  rewrite agent_executer_direct by (simpl; rewrite Hflag; discriminate).
  destruct (llm_invoke llm_gemini (direct_messages_for_llm (chat_inputs request))) as [resp|e].
  - run_monad. 
    destruct (last_message (apply_update (chat_inputs request) (messages_update [resp])))
      as [m|e]; simpl; [| destruct (is_Exception e)]; apply new_calls_add_call.
  - simpl. destruct (is_Exception e); apply new_calls_add_call.
Qed.

End NodeFacts.

(* ===================================================================== *)
(** ** The routing node and the direct path *)
(* ===================================================================== *)

Section Routing.
Context `{B : Backends}.

(** C1. For every state, [check_for_rag] returns "rag_retrieval" exactly
    when [use_rag] is true (a missing flag counts as false) and
    "generate_direct" otherwise.  It is a function from the state to the
    routing string only, so the state goes on unchanged: when the flag is
    not true, the graph hands that very state to [generate_direct], the one
    outside call is the model call on the direct prompt, and no call of the
    retrieval backend is made, neither by the graph nor by [chat]. *)
Theorem check_for_rag_routes (state : AgentState) :
  (check_for_rag state = "rag_retrieval"%string <-> use_rag state = Some true) /\
  (check_for_rag state = "generate_direct"%string <-> use_rag state <> Some true) /\
  (use_rag state <> Some true ->
   forall w : world,
     agent_executer state w =
       (match llm_invoke llm_gemini (direct_messages_for_llm state) with
        | Return response => Return (apply_update state (messages_update [response]))
        | Raise e => Raise e
        end,
        add_call (LlmInvoke llm_gemini (direct_messages_for_llm state)) w) /\
     Forall (fun c => is_retrieval_call c = false)
            (new_calls w (agent_executer state w).2)) /\
  (forall (request : ChatRequest.t) (w : world),
     ChatRequest.use_rag request = false ->
     Forall (fun c => is_retrieval_call c = false) (new_calls w (chat request w).2)).
Proof.
  split; [| split; [| split]].
  - unfold check_for_rag. destruct (use_rag state) as [[]|]; simpl; split; congruence.
  - unfold check_for_rag. destruct (use_rag state) as [[]|]; simpl; split; congruence.
  - intros Hflag w. split.
    + now apply agent_executer_direct.
    + rewrite agent_executer_direct by exact Hflag. simpl.
      rewrite new_calls_add_call. now repeat constructor.
  - intros request w Hflag. rewrite chat_direct_calls by exact Hflag.
    now repeat constructor.
Qed.

(** C5. For every state, the list [generate_direct] sends to the model is
    the system instruction, unchanged, as a ("system", ...) entry, followed
    by one (role, content) entry per message of the state, in the order of
    the state and with the content unchanged; the role is the message's
    [type] when it has one and "user" otherwise. *)
Theorem generate_direct_prompt (state : AgentState) (w : world) :
  new_calls w (generate_direct state w).2 =
    [LlmInvoke llm_gemini
       (InTuple "system" (default default_system_prompt (system_prompt state)) ::
        map (fun msg => InTuple (default "user"%string (type msg)) (content msg))
            (messages state))] /\
  (system_prompt state = None ->
   head (direct_messages_for_llm state) = Some (InTuple "system" "You are a helpful AI assistant.")) /\
  length (direct_messages_for_llm state) = S (length (messages state)) /\
  (forall (i : nat) (msg : Message),
     messages state !! i = Some msg ->
     direct_messages_for_llm state !! S i =
       Some (InTuple (match type msg with Some r => r | None => "user"%string end)
                     (content msg))).
Proof.
  split; [| split; [| split]].
  - rewrite generate_direct_run. simpl. now rewrite new_calls_add_call.
  - intros Hsp. unfold direct_messages_for_llm. now rewrite Hsp.
  - unfold direct_messages_for_llm. simpl. now rewrite length_map.
  - intros i msg Hi. unfold direct_messages_for_llm. simpl.
    rewrite list_lookup_fmap, Hi. simpl. unfold role_content.
    now destruct (type msg).
Qed.

End Routing.

(** A request without the flag, served by the sample backends: the only
    outside call is the model call. *)
Lemma check_for_rag_routes_witness :
  use_rag (chat_inputs Sample.hello) <> Some true /\
  Forall (fun c => is_retrieval_call c = false)
    (new_calls Sample.w0
       (agent_executer (B := Sample.backends) (chat_inputs Sample.hello) Sample.w0).2).
Proof.
  split.
  - simpl. discriminate.
  - apply (proj1 (proj2 (proj2 (check_for_rag_routes (B := Sample.backends)
                                                      (chat_inputs Sample.hello))))).
    simpl. discriminate.
Defined.

(** A two-message history with one message that has no [type]. *)
Lemma generate_direct_prompt_witness :
  let state := {| messages := [HumanMessage "Hi"; {| type := None; content := "there" |}];
                  session_id := None; use_rag := None; system_prompt := None;
                  context := None |} in
  messages state !! 1%nat = Some {| type := None; content := "there"%string |} /\
  direct_messages_for_llm state !! 2%nat = Some (InTuple "user" "there").
Proof.
  intros state. split.
  - reflexivity.
  - apply (proj2 (proj2 (proj2 (generate_direct_prompt (B := Sample.backends) state Sample.w0)))
             1%nat {| type := None; content := "there"%string |}).
    reflexivity.
Defined.

(* ===================================================================== *)
(** ** The retrieval path *)
(* ===================================================================== *)

Lemma str_app_assoc (s1 s2 s3 : string) : (s1 +:+ s2) +:+ s3 = s1 +:+ (s2 +:+ s3).
Proof.
  induction s1 as [|a s1 IH]; [reflexivity |].
  change (String a ((s1 +:+ s2) +:+ s3) = String a (s1 +:+ (s2 +:+ s3))).
  now f_equal.
Qed.

Lemma format_app {F : Type} (value : F -> string) (t1 t2 : list (Py.fpart F)) :
  Py.format value (t1 ++ t2) = Py.format value t1 +:+ Py.format value t2.
Proof.
  induction t1 as [|[s|f] t1 IH]; simpl.
  - reflexivity.
  - now rewrite IH, str_app_assoc.
  - now rewrite IH, str_app_assoc.
Qed.

Lemma rag_prompt_shape (user_system_prompt context user_query : string) :
  rag_prompt user_system_prompt context user_query =
    user_system_prompt +:+ rag_instructions_text +:+
    "    DOCUMENT SNIPPETS:" +:+ Py.nl +:+
    "    ---" +:+ Py.nl +:+
    "    " +:+ context +:+ Py.nl +:+
    "    ---" +:+ Py.nl +:+
    Py.nl +:+
    "    USER'S QUESTION:" +:+ Py.nl +:+
    "    " +:+ Py.dquote +:+ user_query +:+ Py.dquote +:+ Py.nl +:+
    "    ".
Proof.
  unfold rag_prompt, rag_template.
  change ([Py.Field F_user_system_prompt] ++ ?t) with (Py.Field F_user_system_prompt :: t).
  cbn [Py.format]. rewrite format_app.
  f_equal.
Qed.

Lemma last_message_snoc (state : AgentState) (earlier : list Message) (m : Message) :
  messages state = earlier ++ [m] -> last_message state = Return m.
Proof. intros H. unfold last_message. now rewrite H, last_snoc. Qed.

Section Retrieval.
Context `{B : Backends}.

Lemma generate_with_context_run (state : AgentState) (m : Message) (w : world) :
  last (messages state) = Some m ->
  let prompt :=
    rag_prompt (default default_system_prompt (system_prompt state))
               (default EmptyString (context_str <$> context state)) (content m) in
  generate_with_context state w =
    (match llm_invoke llm_gemini (rag_messages_for_llm state prompt) with
     | Return response => Return (messages_update [response])
     | Raise e => Raise e
     end,
     add_call (LlmInvoke llm_gemini (rag_messages_for_llm state prompt)) w).
Proof.
  intros Hlast prompt. unfold generate_with_context, last_message. rewrite Hlast.
  run_monad. fold prompt.
  now destruct (llm_invoke llm_gemini (rag_messages_for_llm state prompt)).
Qed.

(** C2. For every state with a latest message: when [session_id] is absent
    or empty, [retrieve_from_rag] returns the fixed diagnostic as [context]
    and makes no outside call at all; when it is a non-empty [sid], the node
    asks the vector store for the retriever of [sid] once and, having got
    it, queries it exactly once with the text of the latest message; when
    the query returns snippets, [context] is their texts joined by a blank
    line, so two snippets "A" and "B" give "A", newline, newline, "B". *)
Theorem retrieve_from_rag_contract (state : AgentState) (m : Message) (w : world) :
  last (messages state) = Some m ->
  (session_id state = None \/ session_id state = Some EmptyString ->
   retrieve_from_rag state w =
     (Return {| upd_messages := None;
                upd_context :=
                  Some (CtxStr "Error: No session ID provided for document retrieval.") |},
      w)) /\
  (forall sid : string,
     session_id state = Some sid -> sid <> EmptyString ->
     new_calls w (retrieve_from_rag state w).2 =
       GetRetriever sid ::
       match get_retriever sid with
       | Return _ => [RetrieverInvoke sid (content m)]
       | Raise _ => []
       end /\
     forall (r : retriever) (docs : list Document),
       get_retriever sid = Return r ->
       retriever_invoke r (content m) = Return docs ->
       (retrieve_from_rag state w).1 =
         Return {| upd_messages := None;
                   upd_context :=
                     Some (CtxStr (Py.join (Py.nl +:+ Py.nl) (map page_content docs))) |} /\
       (forall a b : string,
          map page_content docs = [a; b] ->
          Py.join (Py.nl +:+ Py.nl) (map page_content docs) = a +:+ Py.nl +:+ Py.nl +:+ b)).
Proof.
  intros Hlast. unfold retrieve_from_rag, last_message. rewrite Hlast. split.
  - intros [Hsid | Hsid]; rewrite Hsid; reflexivity.
  - intros sid Hsid Hne. rewrite Hsid.
    destruct sid as [|c sid']; [congruence |].
    set (sid := String c sid') in *.
    run_monad. simpl. split.
    + destruct (get_retriever sid) as [r|e]; simpl.
      * destruct (retriever_invoke r (content m)); simpl;
          unfold new_calls, add_call; simpl;
          rewrite <- app_assoc; apply drop_app_length.
      * apply new_calls_add_call.
    + intros r docs Hr Hdocs. rewrite Hr. simpl. rewrite Hdocs. simpl. split.
      * reflexivity.
      * intros a b Hab. rewrite Hab. reflexivity.
Qed.

(** C3. For every state whose messages are [earlier] followed by a last
    message [m]: the prompt [generate_with_context] builds is the system
    prompt, the fixed instructions, the context string unchanged between
    the "DOCUMENT SNIPPETS:" dashes, and the text of [m] unchanged between
    double quotes under "USER'S QUESTION:"; the list sent to the model is
    [earlier] followed by that prompt as a ("user", prompt) entry, which
    takes the place of [m]: the list is as long as the state's messages. *)
Theorem generate_with_context_prompt
    (state : AgentState) (earlier : list Message) (m : Message) (w : world) :
  messages state = earlier ++ [m] ->
  let context_text := match context state with
                      | Some (CtxStr s) => s
                      | Some (CtxTool r) => tool_str r
                      | None => EmptyString
                      end in
  let prompt :=
    default default_system_prompt (system_prompt state) +:+ rag_instructions_text +:+
    "    DOCUMENT SNIPPETS:" +:+ Py.nl +:+
    "    ---" +:+ Py.nl +:+
    "    " +:+ context_text +:+ Py.nl +:+
    "    ---" +:+ Py.nl +:+
    Py.nl +:+
    "    USER'S QUESTION:" +:+ Py.nl +:+
    "    " +:+ Py.dquote +:+ content m +:+ Py.dquote +:+ Py.nl +:+
    "    " in
  let sent := map InMessage earlier ++ [InTuple "user" prompt] in
  new_calls w (generate_with_context state w).2 = [LlmInvoke llm_gemini sent] /\
  length sent = length (messages state) /\
  last sent = Some (InTuple "user" prompt) /\
  take (length earlier) sent = map InMessage (take (length earlier) (messages state)).
Proof.
  intros Hmsgs context_text prompt sent.
  assert (Hlast : last (messages state) = Some m) by (rewrite Hmsgs; apply last_snoc).
  assert (Hprompt : rag_prompt (default default_system_prompt (system_prompt state))
                      (default EmptyString (context_str <$> context state)) (content m) = prompt).
  { rewrite rag_prompt_shape. subst prompt context_text.
    destruct (context state) as [[s|r]|]; reflexivity. }
  split; [| split; [| split]].
  - rewrite (generate_with_context_run state m w Hlast). cbv zeta. rewrite Hprompt.
    unfold rag_messages_for_llm. rewrite Hmsgs, removelast_last. simpl.
    apply new_calls_add_call.
  - subst sent. rewrite Hmsgs, !length_app, length_map. reflexivity.
  - subst sent. apply last_snoc.
  - subst sent. rewrite Hmsgs.
    rewrite take_app_length.
    rewrite <- (length_map InMessage earlier) at 1. now rewrite take_app_length.
Qed.

End Retrieval.

(** The request "Summarize this" of session "s1": the store returns the
    snippets "A" and "B". *)
Lemma retrieve_from_rag_contract_witness :
  last (messages (chat_inputs Sample.summarize)) = Some (HumanMessage "Summarize this") /\
  new_calls Sample.w0
    (retrieve_from_rag (B := Sample.backends) (chat_inputs Sample.summarize) Sample.w0).2 =
    [GetRetriever "s1"; RetrieverInvoke "s1" "Summarize this"] /\
  (retrieve_from_rag (B := Sample.backends) (chat_inputs Sample.summarize) Sample.w0).1 =
    Return {| upd_messages := None;
              upd_context := Some (CtxStr ("A" +:+ Py.nl +:+ Py.nl +:+ "B")) |}.
Proof.
  pose proof (retrieve_from_rag_contract (B := Sample.backends)
                (chat_inputs Sample.summarize) (HumanMessage "Summarize this") Sample.w0
                eq_refl) as [_ Hsid].
  specialize (Hsid "s1"%string eq_refl ltac:(discriminate)) as [Hcalls Hctx].
  specialize (Hctx "s1"%string Sample.snippets eq_refl eq_refl) as [Hctx _].
  split; [reflexivity | split; [exact Hcalls | exact Hctx]].
Defined.

(** The state after retrieval for "Summarize this": the prompt takes the
    place of the only message. *)
Lemma generate_with_context_prompt_witness :
  messages Sample.summarize_with_context = [] ++ [HumanMessage "Summarize this"] /\
  exists prompt : string,
    new_calls Sample.w0
      (generate_with_context (B := Sample.backends) Sample.summarize_with_context Sample.w0).2 =
      [LlmInvoke (llm_gemini (B := Sample.backends)) [InTuple "user" prompt]] /\
    Py.contains ("    ---" +:+ Py.nl +:+ "    A" +:+ Py.nl +:+ Py.nl +:+ "B" +:+ Py.nl +:+ "    ---")
                prompt = true /\
    Py.contains (Py.dquote +:+ "Summarize this" +:+ Py.dquote) prompt = true.
Proof.
  split; [reflexivity |].
  pose proof (generate_with_context_prompt (B := Sample.backends)
                Sample.summarize_with_context [] (HumanMessage "Summarize this") Sample.w0
                eq_refl) as H.
  cbv zeta in H. destruct H as [Hcalls _].
  eexists. split; [exact Hcalls | split; vm_compute; reflexivity].
Defined.

(** C4. The model [generate_with_context] calls.  For the request
    "Summarize this" with the context "A", blank line, "B", the one model
    call is made on [llm_gemini], whose temperature is 0; the model
    configured with temperature 0.7, [llm_gemini_rag], is not called. *)
Theorem generate_with_context_model :
  let w' := (generate_with_context (B := Sample.backends)
               Sample.summarize_with_context Sample.w0).2 in
  map call_temperature (new_calls Sample.w0 w') = [Some 0%Q] /\
  temperature (llm_gemini_rag (B := Sample.backends)) = 0.7%Q /\
  Forall (fun c => forall msgs, c <> LlmInvoke (llm_gemini_rag (B := Sample.backends)) msgs)
         (new_calls Sample.w0 w').
Proof.
  cbv zeta.
  rewrite (generate_with_context_run (B := Sample.backends)
             Sample.summarize_with_context (HumanMessage "Summarize this") Sample.w0 eq_refl).
  cbv zeta. simpl snd. rewrite new_calls_add_call.
  split; [reflexivity | split; [reflexivity |]].
  constructor; [| constructor].
  intros msgs Heq. inversion Heq.
Qed.

(* ===================================================================== *)
(** ** Exceptions in the glue nodes *)
(* ===================================================================== *)

Section Glue.
Context `{B : Backends}.

Lemma run_web_search_lets_through (state : AgentState) (w : world) :
  match (run_web_search state w).1 with
  | Return _ => True
  | Raise e => is_Exception e = false
  end.
Proof.
  unfold run_web_search. destruct get_web_search_tool as [tool|].
  - unfold try_except, last_message. run_monad.
    destruct (last (messages state)) as [m|]; simpl; [| exact I].
    destruct (tool (content m)) as [results|e]; simpl; [exact I |].
    destruct (is_Exception e) eqn:He; simpl; [exact I | exact He].
  - run_monad. simpl. exact I.
Qed.

(** C6, as the code has it.  [run_web_search] lets no exception that
    derives from [Exception] past its boundary: for every state it returns
    an update, or raises an exception that does not derive from [Exception]
    (its clause is [except Exception]).  When the search tool raises an
    [Exception] [e], the update stores "Web search failed: " followed by
    [str(e)] in [context]; when the history is empty, the IndexError of
    reading the last message is stored the same way; an exception of the
    tool that does not derive from [Exception] leaves the node.
    [retrieve_from_rag] has no handler: when the vector store raises [e],
    either on [get_retriever] or on the retriever's [invoke], the node
    raises [e] and returns no update. *)
Theorem glue_nodes_exceptions (state : AgentState) (w : world) :
  match (run_web_search state w).1 with
  | Return _ => True
  | Raise e => is_Exception e = false
  end /\
  (forall (m : Message) (e : exn),
     Py.falsy_opt TAVILY_API_KEY = false ->
     last (messages state) = Some m ->
     search_invoke (content m) = Raise e ->
     run_web_search state w =
       if is_Exception e
       then (Return {| upd_messages := None;
                       upd_context := Some (CtxStr ("Web search failed: " +:+ exn_str e)) |},
             add_call (SearchInvoke (content m)) w)
       else (Raise e, add_call (SearchInvoke (content m)) w)) /\
  (Py.falsy_opt TAVILY_API_KEY = false ->
   messages state = [] ->
   run_web_search state w =
     (Return {| upd_messages := None;
                upd_context := Some (CtxStr "Web search failed: list index out of range") |},
      w)) /\
  (forall (m : Message) (sid : string) (e : exn),
     last (messages state) = Some m ->
     session_id state = Some sid -> sid <> EmptyString ->
     (get_retriever sid = Raise e \/
      exists r : retriever, get_retriever sid = Return r /\
                            retriever_invoke r (content m) = Raise e) ->
     (retrieve_from_rag state w).1 = Raise e).
Proof.
  split; [apply run_web_search_lets_through | split; [| split]].
  - intros m e Hkey Hlast Hraise.
    unfold run_web_search, get_web_search_tool. rewrite Hkey.
    unfold try_except, last_message. rewrite Hlast. run_monad. rewrite Hraise.
    now destruct (is_Exception e).
  - intros Hkey Hempty.
    unfold run_web_search, get_web_search_tool. rewrite Hkey.
    unfold try_except, last_message. rewrite Hempty. reflexivity.
  - intros m sid e Hlast Hsid Hne Hraise.
    unfold retrieve_from_rag, last_message. rewrite Hlast, Hsid.
    destruct sid as [|c sid']; [congruence |].
    set (sid := String c sid') in *.
    run_monad. simpl.
    destruct Hraise as [Hget | (r & Hget & Hinv)]; rewrite Hget; simpl.
    + reflexivity.
    + now rewrite Hinv.
Qed.

End Glue.

(** C6, as stated, fails: with a vector store whose retriever raises, the
    exception leaves [retrieve_from_rag], and no context is stored. *)
Lemma retrieve_from_rag_propagates :
  retrieve_from_rag (B := Sample.store_down) (chat_inputs Sample.summarize) Sample.w0 =
    (Raise Sample.network_down,
     add_call (RetrieverInvoke "s1" "Summarize this")
       (add_call (GetRetriever "s1") Sample.w0)).
Proof. reflexivity. Qed.

(** Both nodes on backends that are down. *)
Lemma glue_nodes_exceptions_witness :
  run_web_search (B := Sample.store_down) (chat_inputs Sample.summarize) Sample.w0 =
    (Return {| upd_messages := None;
               upd_context := Some (CtxStr "Web search failed: network unreachable") |},
     add_call (SearchInvoke "Summarize this") Sample.w0) /\
  (retrieve_from_rag (B := Sample.store_down) (chat_inputs Sample.summarize) Sample.w0).1 =
    Raise Sample.network_down.
Proof.
  pose proof (glue_nodes_exceptions (B := Sample.store_down)
                (chat_inputs Sample.summarize) Sample.w0) as (_ & Hsearch & _ & Hstore).
  split.
  - apply (Hsearch (HumanMessage "Summarize this") Sample.network_down); reflexivity.
  - apply (Hstore (HumanMessage "Summarize this") "s1"%string Sample.network_down);
      [reflexivity | reflexivity | discriminate |].
    right. exists "s1"%string. split; reflexivity.
Defined.

(* ===================================================================== *)
(** ** The keyword router *)
(* ===================================================================== *)

Lemma route_to_llm_cases (state : AgentState) (m : Message) :
  last (messages state) = Some m ->
  let text := Py.lower (content m) in
  route_to_llm state =
    Return (if Py.contains "creative" text || Py.contains "write" text then "gemini"
            else if Py.contains "code" text || Py.contains "python" text then "groq"
            else "ginini")%string.
Proof.
  intros Hlast text. unfold route_to_llm, last_message. rewrite Hlast. fold text.
  destruct (Py.contains "creative" text || Py.contains "write" text); [reflexivity |].
  now destruct (Py.contains "code" text || Py.contains "python" text).
Qed.

(** C7. The default branch of [route_to_llm].  For the message "Hello",
    which holds none of the keywords, the router returns "ginini", which is
    neither of the two provider identifiers it returns on a keyword. *)
Theorem route_to_llm_default :
  route_to_llm (chat_inputs Sample.hello) = Return "ginini"%string /\
  "ginini"%string <> "gemini"%string /\
  "ginini"%string <> "groq"%string.
Proof. split; [reflexivity | split; discriminate]. Qed.

(* ===================================================================== *)
(** ** Paths: where a slash can and cannot stand *)
(* ===================================================================== *)

Lemma occurs_app (c : ascii) (s1 s2 : string) :
  occurs c (s1 +:+ s2) = occurs c s1 || occurs c s2.
Proof.
  induction s1 as [|a s1 IH]; [reflexivity |].
  change (occurs c (String a (s1 +:+ s2)) = occurs c (String a s1) || occurs c s2).
  simpl. rewrite IH. now rewrite orb_assoc.
Qed.

Lemma occurs_take (c : ascii) (k : nat) (s : string) :
  occurs c s = false -> occurs c (Py.take_str k s) = false.
Proof.
  revert k. induction s as [|a s IH]; intros [|k] H; simpl in *; try reflexivity.
  apply orb_false_iff in H as [Ha Hs]. rewrite Ha. simpl. now apply IH.
Qed.

Lemma occurs_drop (c : ascii) (k : nat) (s : string) :
  occurs c s = false -> occurs c (Py.drop_str k s) = false.
Proof.
  revert k. induction s as [|a s IH]; intros [|k] H; simpl in *; try assumption; try reflexivity.
  apply orb_false_iff in H as [_ Hs]. now apply IH.
Qed.

Lemma hex_digit_not_slash (d : N) : (d < 16)%N -> Ascii.eqb (Py.hex_digit d) "/" = false.
Proof.
  intros Hd.
  assert (Hcases : (d = 0 \/ d = 1 \/ d = 2 \/ d = 3 \/ d = 4 \/ d = 5 \/ d = 6 \/ d = 7 \/
                    d = 8 \/ d = 9 \/ d = 10 \/ d = 11 \/ d = 12 \/ d = 13 \/ d = 14 \/
                    d = 15)%N) by lia.
  repeat (destruct Hcases as [-> | Hcases]; [reflexivity |]). now subst d.
Qed.

Lemma hex_fixed_no_slash (width : nat) (n : N) : occurs "/" (Py.hex_fixed width n) = false.
Proof.
  revert n. induction width as [|width IH]; intros n; [reflexivity |].
  simpl. rewrite occurs_app, IH. simpl.
  rewrite hex_digit_not_slash; [reflexivity |].
  apply N.mod_lt. discriminate.
Qed.

Lemma uuid_str_no_slash (u : N) : occurs "/" (Py.uuid_str u) = false.
Proof.
  unfold Py.uuid_str. cbv zeta.
  pose proof (hex_fixed_no_slash 32 u) as Hh.
  repeat rewrite occurs_app.
  rewrite !occurs_take by (try apply occurs_drop; exact Hh).
  rewrite occurs_drop by exact Hh. reflexivity.
Qed.

(** [rfind_from] answers -1 or an index inside the string. *)
Lemma rfind_from_range (c : ascii) (s : string) (i : Z) :
  0 <= i ->
  Py.rfind_from c s i = -1 \/
  (i <= Py.rfind_from c s i < i + Z.of_nat (String.length s)).
Proof.
  revert i. induction s as [|a s IH]; intros i Hi; [now left |].
  simpl Py.rfind_from. cbv zeta.
  destruct (IH (i + 1) ltac:(lia)) as [Hr | Hr].
  - rewrite Hr. change (0 <=? -1) with false. cbv iota.
    destruct (Ascii.eqb a c); [right | now left].
    simpl String.length. lia.
  - destruct (Z.leb_spec 0 (Py.rfind_from c s (i + 1))); [| lia].
    right. simpl String.length. lia.
Qed.

(** Nothing after the index [rfind] answers is the character sought. *)
Lemma rfind_from_after (c : ascii) (s : string) (i : Z) (k : nat) :
  0 <= i ->
  Py.rfind_from c s i < i + Z.of_nat k ->
  occurs c (Py.drop_str k s) = false.
Proof.
  revert i k. induction s as [|a s IH]; intros i k Hi Hk.
  - now destruct k.
  - simpl Py.rfind_from in Hk. cbv zeta in Hk.
    pose proof (rfind_from_range c s (i + 1) ltac:(lia)) as Hr.
    destruct (Z.leb_spec 0 (Py.rfind_from c s (i + 1))) as [Hpos | Hneg].
    + destruct k as [|k]; [lia |].
      simpl. apply (IH (i + 1)); lia.
    + destruct Hr as [Hr | Hr]; [| lia].
      destruct k as [|k].
      * simpl. destruct (Ascii.eqb a c); [lia |].
        simpl. apply (IH (i + 1) 0%nat); lia.
      * simpl. apply (IH (i + 1) k); lia.
Qed.

(** The extension [splitext] answers holds no slash. *)
Lemma splitext_ext_no_slash (p : string) : occurs "/" (Py.splitext p).2 = false.
Proof.
  unfold Py.splitext. cbv zeta.
  destruct (Z.ltb_spec (Py.rfind "/" p) (Py.rfind "." p)) as [Hlt | Hge]; [| reflexivity].
  simpl andb.
  destruct (Py.has_non_dot _ _ _); [| reflexivity].
  simpl snd.
  pose proof (rfind_from_range "." p 0 ltac:(lia)) as Hdot.
  pose proof (rfind_from_range "/" p 0 ltac:(lia)) as Hsep.
  unfold Py.rfind in *.
  apply (rfind_from_after "/" p 0); [lia |].
  lia.
Qed.

(** A string without [c] appended to [s1] leaves [rfind] inside [s1]. *)
Lemma rfind_from_app (c : ascii) (s1 s2 : string) (i : Z) :
  occurs c s2 = false -> Py.rfind_from c (s1 +:+ s2) i = Py.rfind_from c s1 i.
Proof.
  intros Hs2. revert i. induction s1 as [|a s1 IH]; intros i.
  - change (EmptyString +:+ s2) with s2. simpl.
    revert i. induction s2 as [|b s2 IH2]; intros i; [reflexivity |].
    simpl in Hs2. apply orb_false_iff in Hs2 as [Hb Hs2].
    simpl. rewrite (IH2 Hs2). simpl. now rewrite Hb.
  - change (String a s1 +:+ s2) with (String a (s1 +:+ s2)).
    simpl. now rewrite IH.
Qed.

Lemma starts_without (c : ascii) (s : string) : occurs c s = false -> Py.startswith c s = false.
Proof. destruct s as [|a s]; simpl; [reflexivity |]. intros H. now apply orb_false_iff in H as [-> _]. Qed.

(** The shape of the temporary path, its directory and its base name. *)
Lemma temp_path_shape (name : string) (u : N) :
  temp_path name u = "temp_uploads/" +:+ (Py.uuid_str u +:+ (Py.splitext name).2) /\
  Py.path_dirname (temp_path name u) = UPLOAD_DIR /\
  Py.path_basename (temp_path name u) = Py.uuid_str u +:+ (Py.splitext name).2.
Proof.
  set (base := Py.uuid_str u +:+ (Py.splitext name).2).
  assert (Hbase : occurs "/" base = false).
  { unfold base. now rewrite occurs_app, uuid_str_no_slash, splitext_ext_no_slash. }
  assert (Hpath : temp_path name u = "temp_uploads/" +:+ base).
  { unfold temp_path. cbv zeta. fold base. unfold Py.path_join.
    now rewrite (starts_without _ _ Hbase). }
  assert (Hrfind : Py.rfind "/" ("temp_uploads/" +:+ base) = 12).
  { unfold Py.rfind. now rewrite rfind_from_app. }
  split; [exact Hpath | split].
  - unfold Py.path_dirname. rewrite Hpath, Hrfind. reflexivity.
  - unfold Py.path_basename. rewrite Hpath, Hrfind. reflexivity.
Qed.

(* ===================================================================== *)
(** ** The upload handler: what it touches *)
(* ===================================================================== *)

Lemma touches_only_refl (path : string) (w : world) : touches_only path w w.
Proof. split; [reflexivity |]. exists []. now rewrite app_nil_r. Qed.

Lemma touches_only_trans (path : string) (w1 w2 w3 : world) :
  touches_only path w1 w2 -> touches_only path w2 w3 -> touches_only path w1 w3.
Proof.
  intros [Hfs1 (cs1 & Hc1 & Hok1)] [Hfs2 (cs2 & Hc2 & Hok2)]. split.
  - intros p Hp. now rewrite Hfs2, Hfs1.
  - exists (cs1 ++ cs2). split.
    + now rewrite Hc2, Hc1, app_assoc.
    + now apply Forall_app.
Qed.

Lemma touches_only_same (path : string) (w w' : world) :
  fs w' = fs w -> calls w' = calls w -> touches_only path w w'.
Proof.
  intros Hfs Hcalls. split.
  - intros p _. now rewrite Hfs.
  - exists []. now rewrite app_nil_r.
Qed.

Section Keeps.
Variable path : string.

Lemma keeps_ret {A : Type} (a : A) : keeps path (mret a : M A).
Proof. intros w. apply touches_only_refl. Qed.

Lemma keeps_raise {A : Type} (e : exn) : keeps path (raise e : M A).
Proof. intros w. apply touches_only_refl. Qed.

Lemma keeps_read_world {A : Type} (f : world -> A) : keeps path (read_world f).
Proof. intros w. apply touches_only_refl. Qed.

Lemma keeps_bind {A C : Type} (m : M A) (k : A -> M C) :
  keeps path m -> (forall a, keeps path (k a)) -> keeps path (m ≫= k).
Proof.
  intros Hm Hk w. specialize (Hm w). unfold mbind, M_bind.
  destruct (m w) as [[a|e] w1]; simpl in *.
  - eapply touches_only_trans; [exact Hm | apply Hk].
  - exact Hm.
Qed.

Lemma keeps_try_except {A : Type} (m : M A) (h : exn -> M A) :
  keeps path m -> (forall e, keeps path (h e)) -> keeps path (try_except m h).
Proof.
  intros Hm Hh w. specialize (Hm w). unfold try_except.
  destruct (m w) as [[a|e] w1]; simpl in *.
  - exact Hm.
  - destruct (is_Exception e); [| exact Hm].
    eapply touches_only_trans; [exact Hm | apply Hh].
Qed.

Lemma keeps_try_finally {A : Type} (m : M A) (c : M unit) :
  keeps path m -> keeps path c -> keeps path (try_finally m c).
Proof.
  intros Hm Hc w. specialize (Hm w). unfold try_finally.
  destruct (m w) as [r w1]. specialize (Hc w1).
  destruct (c w1) as [[u|e] w2]; simpl in *;
    eapply touches_only_trans; eassumption.
Qed.

Lemma keeps_outside {A : Type} (c : call) (answer : outcome A) :
  fs_call_path c = None \/ fs_call_path c = Some path ->
  keeps path (outside c answer).
Proof.
  intros Hc w. split; [reflexivity |]. exists [c]. split; [reflexivity |].
  now constructor.
Qed.

End Keeps.

Lemma str_length_app (s1 s2 : string) :
  String.length (s1 +:+ s2) = (String.length s1 + String.length s2)%nat.
Proof.
  induction s1 as [|a s1 IH]; [reflexivity |].
  change (String a s1 +:+ s2) with (String a (s1 +:+ s2)). simpl. now rewrite IH.
Qed.

Lemma hex_fixed_length (width : nat) (n : N) : String.length (Py.hex_fixed width n) = width.
Proof.
  revert n. induction width as [|width IH]; intros n; [reflexivity |].
  simpl. rewrite str_length_app, IH. simpl. lia.
Qed.

Lemma app_chr_inj (s1 s2 : string) (a b : ascii) :
  s1 +:+ Py.chr a = s2 +:+ Py.chr b -> s1 = s2 /\ a = b.
Proof.
  revert s2. induction s1 as [|c s1 IH]; intros [|d s2] H.
  - injection H as ->. now split.
  - change (String d s2 +:+ Py.chr b) with (String d (s2 +:+ Py.chr b)) in H.
    injection H as _ H. destruct s2; discriminate H.
  - change (String c s1 +:+ Py.chr a) with (String c (s1 +:+ Py.chr a)) in H.
    injection H as _ H. destruct s1; discriminate H.
  - change (String c s1 +:+ Py.chr a) with (String c (s1 +:+ Py.chr a)) in H.
    change (String d s2 +:+ Py.chr b) with (String d (s2 +:+ Py.chr b)) in H.
    injection H as -> H. destruct (IH s2 H) as [-> ->]. now split.
Qed.

Lemma hex_digit_inj (d1 d2 : N) :
  (d1 < 16)%N -> (d2 < 16)%N -> Py.hex_digit d1 = Py.hex_digit d2 -> d1 = d2.
Proof.
  intros H1 H2 Heq. apply (f_equal N_of_ascii) in Heq. unfold Py.hex_digit in Heq.
  destruct (N.ltb_spec d1 10), (N.ltb_spec d2 10);
    rewrite !N_ascii_embedding in Heq by lia; lia.
Qed.

(** Distinct numbers below 16^width have distinct hex strings. *)
Lemma hex_fixed_inj (width : nat) (n m : N) :
  (n < 16 ^ N.of_nat width)%N -> (m < 16 ^ N.of_nat width)%N ->
  Py.hex_fixed width n = Py.hex_fixed width m -> n = m.
Proof.
  revert n m. induction width as [|width IH]; intros n m Hn Hm Heq.
  - simpl in Hn, Hm. lia.
  - simpl in Heq. apply app_chr_inj in Heq as [Hhigh Hlow].
    rewrite Nat2N.inj_succ, N.pow_succ_r' in Hn, Hm.
    apply hex_digit_inj in Hlow; [| apply N.mod_lt; discriminate ..].
    apply IH in Hhigh;
      [| apply N.Div0.div_lt_upper_bound; lia | apply N.Div0.div_lt_upper_bound; lia].
    rewrite (N.div_mod n 16), (N.div_mod m 16) by discriminate. now rewrite Hhigh, Hlow.
Qed.

Lemma ungrouped_grouped (h : string) :
  String.length h = 32%nat -> ungrouped (grouped h) = h.
Proof.
  intros Hlen.
  do 32 (destruct h as [|? h]; [discriminate Hlen |]).
  destruct h; [reflexivity | discriminate Hlen].
Qed.

Lemma grouped_length (h : string) :
  String.length h = 32%nat -> String.length (grouped h) = 36%nat.
Proof.
  intros Hlen.
  do 32 (destruct h as [|? h]; [discriminate Hlen |]).
  destruct h; [reflexivity | discriminate Hlen].
Qed.

Lemma lor_below (a b : N) : (a < 2 ^ 128)%N -> (b < 2 ^ 128)%N -> (N.lor a b < 2 ^ 128)%N.
Proof.
  intros Ha Hb.
  destruct (N.eq_dec (N.lor a b) 0%N) as [-> | Hne]; [reflexivity |].
  apply N.log2_lt_pow2; [lia |]. rewrite N.log2_lor.
  assert (Hlog : forall x : N, (x < 2 ^ 128)%N -> (N.log2 x < 128)%N).
  { intros x Hx. destruct (N.eq_dec x 0%N) as [-> | Hx0]; [reflexivity |].
    apply N.log2_lt_pow2; lia. }
  specialize (Hlog a Ha) as Hla. specialize (Hlog b Hb) as Hlb. lia.
Qed.

Lemma uuid4_int_below (r : N) : (Py.uuid4_int r < 2 ^ 128)%N.
Proof.
  unfold Py.uuid4_int. cbv zeta.
  apply lor_below; [| reflexivity].
  eapply N.le_lt_trans; [apply N.ldiff_le_l |].
  apply lor_below; [| reflexivity].
  eapply N.le_lt_trans; [apply N.ldiff_le_l |].
  rewrite N.land_ones. apply N.mod_lt. discriminate.
Qed.

Lemma uuid_str_grouped (u : N) : Py.uuid_str u = grouped (Py.hex_fixed 32 u).
Proof. reflexivity. Qed.

Lemma uuid_str_length (u : N) : String.length (Py.uuid_str u) = 36%nat.
Proof. rewrite uuid_str_grouped. apply grouped_length, hex_fixed_length. Qed.

(** Distinct 128-bit numbers have distinct UUID strings. *)
Lemma uuid_str_inj (u1 u2 : N) :
  (u1 < 2 ^ 128)%N -> (u2 < 2 ^ 128)%N -> Py.uuid_str u1 = Py.uuid_str u2 -> u1 = u2.
Proof.
  intros H1 H2 Heq. rewrite !uuid_str_grouped in Heq.
  apply (f_equal ungrouped) in Heq.
  rewrite !ungrouped_grouped in Heq by apply hex_fixed_length.
  apply hex_fixed_inj in Heq; [exact Heq | exact H1 | exact H2].
Qed.

Lemma app_same_length_inj (a b x y : string) :
  String.length a = String.length b -> a +:+ x = b +:+ y -> a = b /\ x = y.
Proof.
  revert b. induction a as [|c a IH]; intros [|d b] Hlen H; try discriminate Hlen.
  - now split.
  - change (String c a +:+ x) with (String c (a +:+ x)) in H.
    change (String d b +:+ y) with (String d (b +:+ y)) in H.
    injection H as -> H. injection Hlen as Hlen.
    destruct (IH b Hlen H) as [-> ->]. now split.
Qed.

(** Where the bits of [m] are, [c] has none ([c] and [m] apart) or has them
    all ([m] within [c]). *)
Lemma bits_apart (c m i : N) :
  N.land c m = 0%N -> N.testbit m i = true -> N.testbit c i = false.
Proof.
  intros H Hm. pose proof (N.land_spec c m i) as Hs.
  rewrite H, N.bits_0, Hm in Hs. now destruct (N.testbit c i).
Qed.

Lemma bits_within (c m i : N) :
  N.land c m = m -> N.testbit m i = true -> N.testbit c i = true.
Proof.
  intros H Hm. pose proof (N.land_spec c m i) as Hs.
  rewrite H, Hm in Hs. now destruct (N.testbit c i).
Qed.

(** [uuid4_int] keeps the 122 random bits of the bytes it is given. *)
Lemma uuid4_int_random (r : N) :
  N.land (Py.uuid4_int r) uuid_random_bits = N.land r uuid_random_bits.
Proof.
  apply N.bits_inj. intros i. unfold Py.uuid4_int. cbv zeta.
  rewrite !N.land_spec, !N.lor_spec, !N.ldiff_spec, !N.lor_spec, !N.ldiff_spec, !N.land_spec.
  destruct (N.testbit uuid_random_bits i) eqn:Hm; [| now rewrite !andb_false_r].
  rewrite (bits_apart (N.shiftl 0xc000 48) uuid_random_bits i eq_refl Hm).
  rewrite (bits_apart (N.shiftl 0x8000 48) uuid_random_bits i eq_refl Hm).
  rewrite (bits_apart (N.shiftl 0xf000 64) uuid_random_bits i eq_refl Hm).
  rewrite (bits_apart (N.shiftl 4 76) uuid_random_bits i eq_refl Hm).
  rewrite (bits_within (N.ones 128) uuid_random_bits i eq_refl Hm).
  now destruct (N.testbit r i).
Qed.

(** [uuid4_int] sets the variant and version bits to those of a version-4
    UUID, whatever the bytes. *)
Lemma uuid4_int_fixed (r : N) :
  N.land (Py.uuid4_int r) uuid_fixed_bits = uuid_version_4.
Proof.
  apply N.bits_inj. intros i. unfold Py.uuid4_int. cbv zeta.
  rewrite !N.land_spec, !N.lor_spec, !N.ldiff_spec, !N.lor_spec, !N.ldiff_spec, !N.land_spec.
  unfold uuid_version_4, uuid_fixed_bits. rewrite !N.lor_spec.
  destruct (N.testbit (N.shiftl 0xc000 48) i) eqn:H1;
  destruct (N.testbit (N.shiftl 0xf000 64) i) eqn:H3.
  - rewrite (bits_apart (N.shiftl 0xc000 48) (N.shiftl 0xf000 64) i eq_refl H3) in H1.
    discriminate.
  - rewrite (bits_apart (N.shiftl 4 76) (N.shiftl 0xc000 48) i eq_refl H1).
    destruct (N.testbit r i), (N.testbit (N.ones 128) i), (N.testbit (N.shiftl 0x8000 48) i);
      reflexivity.
  - rewrite (bits_apart (N.shiftl 0x8000 48) (N.shiftl 0xf000 64) i eq_refl H3).
    destruct (N.testbit r i), (N.testbit (N.ones 128) i), (N.testbit (N.shiftl 4 76) i);
      reflexivity.
  - assert (H2 : N.testbit (N.shiftl 0x8000 48) i = false).
    { destruct (N.testbit (N.shiftl 0x8000 48) i) eqn:H2; [| reflexivity].
      rewrite (bits_within (N.shiftl 0xc000 48) (N.shiftl 0x8000 48) i eq_refl H2) in H1.
      discriminate. }
    assert (H4 : N.testbit (N.shiftl 4 76) i = false).
    { destruct (N.testbit (N.shiftl 4 76) i) eqn:H4; [| reflexivity].
      rewrite (bits_within (N.shiftl 0xf000 64) (N.shiftl 4 76) i eq_refl H4) in H3.
      discriminate. }
    rewrite H2, H4. now rewrite !andb_false_r.
Qed.

(* ===================================================================== *)
(** ** Runs that draw no UUID *)
(* ===================================================================== *)

Lemma draws_none_ret {A : Type} (a : A) : draws_none (mret a : M A).
Proof. intros w. reflexivity. Qed.

Lemma draws_none_raise {A : Type} (e : exn) : draws_none (raise e : M A).
Proof. intros w. reflexivity. Qed.

Lemma draws_none_read_world {A : Type} (f : world -> A) : draws_none (read_world f).
Proof. intros w. reflexivity. Qed.

Lemma draws_none_outside {A : Type} (c : call) (answer : outcome A) :
  draws_none (outside c answer).
Proof. intros w. reflexivity. Qed.

Lemma draws_none_bind {A C : Type} (m : M A) (k : A -> M C) :
  draws_none m -> (forall a, draws_none (k a)) -> draws_none (m ≫= k).
Proof.
  intros Hm Hk w. specialize (Hm w). unfold mbind, M_bind.
  destruct (m w) as [[a|e] w1]; cbn [fst snd] in *.
  - now rewrite Hk.
  - exact Hm.
Qed.

Lemma draws_none_try_except {A : Type} (m : M A) (h : exn -> M A) :
  draws_none m -> (forall e, draws_none (h e)) -> draws_none (try_except m h).
Proof.
  intros Hm Hh w. specialize (Hm w). unfold try_except.
  destruct (m w) as [[a|e] w1]; cbn [fst snd] in *.
  - exact Hm.
  - destruct (is_Exception e); [| exact Hm]. now rewrite Hh.
Qed.

Lemma draws_none_try_finally {A : Type} (m : M A) (c : M unit) :
  draws_none m -> draws_none c -> draws_none (try_finally m c).
Proof.
  intros Hm Hc w. specialize (Hm w). unfold try_finally.
  destruct (m w) as [r w1]. specialize (Hc w1).
  destruct (c w1) as [[u|e] w2]; cbn [fst snd] in *; congruence.
Qed.

Section UploadFacts.
Context `{B : Backends}.

Lemma keeps_save_upload (file : UploadFile) (path : string) :
  keeps path (save_upload file path).
Proof.
  intros w. unfold save_upload. cbv zeta.
  assert (Hlog : Forall (fun c => fs_call_path c = None \/ fs_call_path c = Some path)
                        [FsOpenWb path]) by (constructor; [now right | constructor]).
  destruct (disk_write path _) as [|e|written e]; simpl;
    try destruct (stream_closed w); simpl;
    (split; [intros p Hp; simpl; try rewrite lookup_insert_ne by congruence; reflexivity
            | exists [FsOpenWb path]; split; [reflexivity | exact Hlog]]).
Qed.

Lemma save_upload_logs (file : UploadFile) (path : string) (w : world) :
  calls (save_upload file path w).2 = calls w ++ [FsOpenWb path].
Proof.
  unfold save_upload. cbv zeta.
  destruct (disk_write path _); simpl; try destruct (stream_closed w); reflexivity.
Qed.

Lemma cleanup_run (file : UploadFile) (path : string) (w : world) :
  cleanup file path w =
    (Return tt,
     set_stream_closed true
       (if bool_decide (is_Some (fs w !! path))
        then set_fs (delete path) (add_call (FsRemove path) w)
        else w)).
Proof.
  unfold cleanup, path_exists, os_remove, file_close. run_monad.
  now destruct (bool_decide (is_Some (fs w !! path))).
Qed.

Lemma cleanup_removes (file : UploadFile) (path : string) (w : world) :
  fs (cleanup file path w).2 !! path = None /\
  stream_closed (cleanup file path w).2 = true.
Proof.
  rewrite cleanup_run. simpl. split; [| reflexivity].
  destruct (bool_decide_reflect (is_Some (fs w !! path))) as [Hsome | Hnone]; simpl.
  - apply lookup_delete_eq.
  - now apply eq_None_not_Some.
Qed.

Lemma keeps_cleanup (file : UploadFile) (path : string) : keeps path (cleanup file path).
Proof.
  intros w. rewrite cleanup_run. simpl.
  destruct (bool_decide (is_Some (fs w !! path))); simpl.
  - split.
    + intros p Hp. simpl. now rewrite lookup_delete_ne by congruence.
    + exists [FsRemove path]. split; [reflexivity |]. constructor; [now right | constructor].
  - apply touches_only_same; reflexivity.
Qed.

Lemma keeps_parse_and_embed (file : UploadFile) (name sid path ext : string) :
  keeps path (parse_and_embed file name sid path ext).
Proof.
  unfold parse_and_embed.
  apply keeps_bind; [apply keeps_save_upload | intros _].
  apply keeps_bind.
  - apply keeps_try_except.
    + apply keeps_bind; [apply keeps_read_world | intros files].
      apply keeps_outside. now left.
    + intros e. apply keeps_raise.
  - intros [|d chunks]; [apply keeps_raise |].
    apply keeps_bind; [| intros _; apply keeps_ret].
    apply keeps_try_except; [apply keeps_outside; now left | intros e; apply keeps_raise].
Qed.

Lemma keeps_upload_handlers (path : string) (e : exn) : keeps path (upload_handlers e).
Proof. destruct e; apply keeps_raise. Qed.

(** A nameless upload is turned away at once. *)
Lemma upload_nameless (file : UploadFile) (sid : string) (w : world) :
  Py.falsy_opt (filename file) = true ->
  upload_file file sid w =
    (Raise (HTTPException 400 "No file name provided."), w).
Proof. intros H. unfold upload_file. now rewrite H. Qed.

(** An upload over the limit is turned away after it has been read. *)
Lemma upload_too_large (file : UploadFile) (sid : string) (w : world) :
  Py.falsy_opt (filename file) = false ->
  MAX_FILE_SIZE < len (body file) ->
  upload_file file sid (at_entry w) =
    (Raise (HTTPException 400 (too_large_detail (len (body file)))),
     set_stream_pos (length (body file)) (at_entry w)).
Proof.
  intros Hname Hsize. unfold upload_file. rewrite Hname.
  unfold mbind, M_bind, file_read. simpl stream_closed. cbv iota.
  simpl stream_pos. rewrite drop_0.
  apply Z.ltb_lt in Hsize. rewrite Hsize. reflexivity.
Qed.

Lemma upload_valid_run (file : UploadFile) (sid : string) (w : world) :
  passes_validation file = true ->
  upload_file file sid (at_entry w) =
    try_finally
      (try_except
         (parse_and_embed file (default EmptyString (filename file)) sid
            (upload_path file w) (Py.splitext (default EmptyString (filename file))).2)
         upload_handlers)
      (cleanup file (upload_path file w))
      (before_try file w).
Proof.
  unfold passes_validation. intros Hvalid.
  apply andb_true_iff in Hvalid as [Hname Hsize].
  apply negb_true_iff in Hname. apply Z.leb_le in Hsize.
  unfold upload_file. rewrite Hname.
  unfold mbind at 1. unfold M_bind at 1. unfold file_read.
  simpl stream_closed. cbv iota. simpl stream_pos. rewrite drop_0.
  assert (Hlt : (MAX_FILE_SIZE <? len (body file)) = false) by (apply Z.ltb_ge; lia).
  rewrite Hlt. reflexivity.
Qed.

Lemma draws_none_save_upload (file : UploadFile) (path : string) :
  draws_none (save_upload file path).
Proof.
  intros w. unfold save_upload. cbv zeta.
  destruct (disk_write path _); cbn [fst snd];
    try destruct (stream_closed (add_call (FsOpenWb path) w)); reflexivity.
Qed.

Lemma draws_none_cleanup (file : UploadFile) (path : string) :
  draws_none (cleanup file path).
Proof.
  intros w. rewrite cleanup_run. cbn [fst snd].
  now destruct (bool_decide (is_Some (fs w !! path))).
Qed.

Lemma draws_none_parse_and_embed (file : UploadFile) (name sid path ext : string) :
  draws_none (parse_and_embed file name sid path ext).
Proof.
  unfold parse_and_embed.
  apply draws_none_bind; [apply draws_none_save_upload | intros _].
  apply draws_none_bind.
  - apply draws_none_try_except.
    + apply draws_none_bind; [apply draws_none_read_world | intros files].
      apply draws_none_outside.
    + intros e. apply draws_none_raise.
  - intros [|d chunks]; [apply draws_none_raise |].
    apply draws_none_bind; [| intros _; apply draws_none_ret].
    apply draws_none_try_except; [apply draws_none_outside | intros e; apply draws_none_raise].
Qed.

Lemma draws_none_upload_handlers (e : exn) : draws_none (upload_handlers e).
Proof. destruct e; apply draws_none_raise. Qed.

(** A valid upload draws exactly one UUID. *)
Lemma upload_valid_draws (file : UploadFile) (sid : string) (w : world) :
  passes_validation file = true ->
  uuid_draws (upload_file file sid (at_entry w)).2 = S (uuid_draws w).
Proof.
  intros Hvalid. rewrite (upload_valid_run file sid w Hvalid).
  rewrite (draws_none_try_finally _ _
             (draws_none_try_except _ _
                (draws_none_parse_and_embed file _ sid _ _) draws_none_upload_handlers)
             (draws_none_cleanup file _)).
  reflexivity.
Qed.

(** Two uploads stored at the same path drew the same UUID. *)
Lemma same_path_same_uuid (file1 file2 : UploadFile) (w1 w2 : world) :
  upload_path file1 w1 = upload_path file2 w2 ->
  Py.uuid4_int (urandom16 (uuid_draws w1)) = Py.uuid4_int (urandom16 (uuid_draws w2)).
Proof.
  unfold upload_path. intros Heq.
  rewrite (proj1 (temp_path_shape _ _)) in Heq.
  rewrite (proj1 (temp_path_shape (default EmptyString (filename file2)) _)) in Heq.
  apply String.app_inj in Heq.
  apply app_same_length_inj in Heq as [Huuid _]; [| now rewrite !uuid_str_length].
  apply uuid_str_inj; [apply uuid4_int_below | apply uuid4_int_below | exact Huuid].
Qed.

End UploadFacts.

Section UploadClaims.
Context `{B : Backends}.

Lemma touches_after_first {A C : Type} (path : string)
    (m : M A) (k : A -> M C) (h : exn -> M C) (c : M unit) (w : world) :
  (forall a, keeps path (k a)) -> (forall e, keeps path (h e)) -> keeps path c ->
  touches_only path (m w).2 (try_finally (try_except (m ≫= k) h) c w).2.
Proof.
  intros Hk Hh Hc.
  unfold try_finally at 1. unfold try_except at 1. unfold mbind, M_bind.
  destruct (m w) as [[a|e] w1]; simpl fst; simpl snd.
  - exact (keeps_try_finally path (try_except (k a) h) c
             (keeps_try_except path (k a) h (Hk a) Hh) Hc w1).
  - destruct (is_Exception e).
    + exact (keeps_try_finally path (h e) c (Hh e) Hc w1).
    + exact (keeps_try_finally path (raise e) c (keeps_raise path e) Hc w1).
Qed.

Lemma upload_valid_touches (file : UploadFile) (sid : string) (w : world) :
  passes_validation file = true ->
  let path := upload_path file w in
  let w' := (upload_file file sid (at_entry w)).2 in
  touches_only path (at_entry w) w' /\
  exists cs : list call, calls w' = calls w ++ FsOpenWb path :: cs.
Proof.
  intros Hvalid path. cbv zeta. rewrite (upload_valid_run file sid w Hvalid). fold path.
  set (name := default EmptyString (filename file)).
  set (ext := (Py.splitext name).2).
  split.
  - eapply touches_only_trans;
      [| apply keeps_try_finally;
         [apply keeps_try_except;
          [apply keeps_parse_and_embed | intros e; apply keeps_upload_handlers]
         | apply keeps_cleanup]].
    apply touches_only_same; reflexivity.
  - unfold parse_and_embed.
    match goal with
    | |- context [try_except (save_upload file path ≫= ?k) _] => set (rest := k)
    end.
    assert (Hrest : forall a, keeps path (rest a)).
    { intros a. unfold rest.
      apply keeps_bind.
      - apply keeps_try_except.
        + apply keeps_bind; [apply keeps_read_world | intros files].
          apply keeps_outside. now left.
        + intros e. apply keeps_raise.
      - intros [|d chunks]; [apply keeps_raise |].
        apply keeps_bind; [| intros _; apply keeps_ret].
        apply keeps_try_except; [apply keeps_outside; now left | intros e; apply keeps_raise]. }
    pose proof (touches_after_first path (save_upload file path) rest upload_handlers
                  (cleanup file path) (before_try file w) Hrest
                  (keeps_upload_handlers path) (keeps_cleanup file path))
      as [_ (cs & Hcalls & _)].
    rewrite save_upload_logs in Hcalls.
    exists cs. rewrite Hcalls. simpl calls. now rewrite <- app_assoc.
Qed.

(** C8, as the code has it.  Every upload of more than 50 MB is rejected
    with status 400 before any outside call is made, so before the parser
    and the vector store are called, and storage is left as it was; when
    the upload has a file name, the detail is "File too large. Maximum size
    allowed is 50MB. Your file is <size>MB." with the size in megabytes to
    one decimal. *)
Theorem upload_too_large_rejected (file : UploadFile) (sid : string) (w : world) :
  MAX_FILE_SIZE < len (body file) ->
  let run := upload_file file sid (at_entry w) in
  (exists detail : string, run.1 = Raise (HTTPException 400 detail)) /\
  (Py.falsy_opt (filename file) = false ->
   run.1 = Raise (HTTPException 400
                    ("File too large. Maximum size allowed is 50MB. Your file is " +:+
                     Py.format_mb (len (body file)) +:+ "MB."))) /\
  Forall (fun c => is_ingestion_call c = false) (new_calls (at_entry w) run.2) /\
  new_calls (at_entry w) run.2 = [] /\
  fs run.2 = fs w.
Proof.
  intros Hsize. cbv zeta.
  destruct (Py.falsy_opt (filename file)) eqn:Hname.
  - rewrite (upload_nameless file sid (at_entry w) Hname). simpl.
    rewrite new_calls_refl.
    split; [eauto | split; [discriminate | split; [constructor | split; reflexivity]]].
  - rewrite (upload_too_large file sid w Hname Hsize). simpl.
    split; [eauto | split; [reflexivity | split; [| split; [| reflexivity]]]].
    + unfold new_calls. simpl. rewrite drop_all. constructor.
    + unfold new_calls. simpl. apply drop_all.
Qed.

(** C9, as the code has it.  For every upload that passes validation,
    whatever happens in the handler (success, a parse failure, an empty
    extraction, an embedding failure, a failure to write the file), when it
    completes no file stands at the temporary path and the upload stream is
    closed.  An upload that validation rejects leaves storage as it was and
    makes no outside call: no temporary file is created for it. *)
Theorem upload_cleanup (file : UploadFile) (sid : string) (w : world) :
  let w' := (upload_file file sid (at_entry w)).2 in
  (passes_validation file = true ->
   fs w' !! upload_path file w = None /\ stream_closed w' = true) /\
  (passes_validation file = false ->
   fs w' = fs w /\ new_calls (at_entry w) w' = []).
Proof.
  cbv zeta. split.
  - intros Hvalid. rewrite (upload_valid_run file sid w Hvalid).
    unfold try_finally.
    destruct (try_except _ _ (before_try file w)) as [r w1].
    pose proof (cleanup_removes file (upload_path file w) w1) as [Hgone Hclosed].
    destruct (cleanup file (upload_path file w) w1) as [[u|e] w2] eqn:Hrun.
    + split; [exact Hgone | exact Hclosed].
    + rewrite cleanup_run in Hrun. discriminate Hrun.
  - unfold passes_validation. intros Hinvalid.
    apply andb_false_iff in Hinvalid as [Hname | Hsize].
    + apply negb_false_iff in Hname.
      rewrite (upload_nameless file sid (at_entry w) Hname). simpl.
      now rewrite new_calls_refl.
    + apply Z.leb_gt in Hsize.
      destruct (Py.falsy_opt (filename file)) eqn:Hname.
      * rewrite (upload_nameless file sid (at_entry w) Hname). simpl.
        now rewrite new_calls_refl.
      * rewrite (upload_too_large file sid w Hname Hsize). simpl.
        split; [reflexivity |]. unfold new_calls. simpl. apply drop_all.
Qed.

(** C10. For every upload that passes validation, the temporary file is
    opened at "temp_uploads/" followed by the string of the UUID drawn for
    this request and the extension [splitext] takes from the client's file
    name: its directory is the upload directory and its base name, which
    holds no slash, is the UUID string plus that extension.  Two file names
    with the same extension give the same path, and the handler changes no
    file and makes no file-system call anywhere else.  The UUID is fresh:
    the request consumes exactly one draw of 16 random bytes, so that the
    next request reads the next draw; the UUID has the variant and version
    bits of a version-4 UUID and, in its 122 other bits, the bits of the
    bytes drawn; and an upload arriving in any other world is stored at the
    same path only if the bytes it draws have the same 122 bits. *)
Theorem upload_temp_path (file : UploadFile) (sid : string) (w : world) :
  passes_validation file = true ->
  let ext := (Py.splitext (default EmptyString (filename file))).2 in
  let u := Py.uuid4_int (urandom16 (uuid_draws w)) in
  let path := upload_path file w in
  let w' := (upload_file file sid (at_entry w)).2 in
  path = "temp_uploads/" +:+ (Py.uuid_str u +:+ ext) /\
  Py.path_dirname path = UPLOAD_DIR /\
  Py.path_basename path = Py.uuid_str u +:+ ext /\
  occurs "/" (Py.path_basename path) = false /\
  head (new_calls (at_entry w) w') = Some (FsOpenWb path) /\
  touches_only path (at_entry w) w' /\
  (forall file2 : UploadFile,
     (Py.splitext (default EmptyString (filename file2))).2 = ext ->
     upload_path file2 w = path) /\
  uuid_draws w' = S (uuid_draws w) /\
  N.land u uuid_fixed_bits = uuid_version_4 /\
  N.land u uuid_random_bits = N.land (urandom16 (uuid_draws w)) uuid_random_bits /\
  (forall (file2 : UploadFile) (w2 : world),
     upload_path file2 w2 = path ->
     N.land (urandom16 (uuid_draws w2)) uuid_random_bits =
     N.land (urandom16 (uuid_draws w)) uuid_random_bits).
Proof.
  intros Hvalid ext u path w'.
  pose proof (temp_path_shape (default EmptyString (filename file)) u) as (Hshape & Hdir & Hbase).
  pose proof (upload_valid_touches file sid w Hvalid) as [Htouch (cs & Hcalls)].
  cbv zeta in Htouch, Hcalls. fold path w' in Htouch, Hcalls.
  split; [exact Hshape | split; [exact Hdir | split; [exact Hbase |]]].
  split; [| split; [| split; [exact Htouch | split; [| split; [| split; [| split]]]]]].
  - subst path. unfold upload_path. fold u. rewrite Hbase.
    now rewrite occurs_app, uuid_str_no_slash, splitext_ext_no_slash.
  - unfold new_calls. simpl calls at 1. rewrite Hcalls, drop_app_length. reflexivity.
  - intros file2 Hext. subst path. unfold upload_path, temp_path. cbv zeta.
    now rewrite Hext.
  - exact (upload_valid_draws file sid w Hvalid).
  - apply uuid4_int_fixed.
  - apply uuid4_int_random.
  - intros file2 w2 Hsame.
    apply same_path_same_uuid in Hsame.
    rewrite <- (uuid4_int_random (urandom16 (uuid_draws w2))), Hsame.
    apply uuid4_int_random.
Qed.

End UploadClaims.

(* ===================================================================== *)
(** ** The upload handler on sample uploads *)
(* ===================================================================== *)

Lemma big_len : len Sample.big_body = 62914560.
Proof.
  unfold len, Sample.big_body. rewrite repeat_length, N_nat_Z. reflexivity.
Qed.

Lemma big_over_limit : MAX_FILE_SIZE < len Sample.big_body.
Proof. rewrite big_len. reflexivity. Qed.

(** C8, as stated, fails: a 60 MB upload whose file name is empty is
    rejected with "No file name provided.", which states neither the size
    nor the limit. *)
Lemma upload_big_nameless_detail :
  MAX_FILE_SIZE < len (body Sample.big_nameless) /\
  (upload_file (B := Sample.backends) Sample.big_nameless "s1" (at_entry Sample.w0)).1 =
    Raise (HTTPException 400 "No file name provided.") /\
  "No file name provided."%string <>
    "File too large. Maximum size allowed is 50MB. Your file is " +:+
    Py.format_mb (len (body Sample.big_nameless)) +:+ "MB.".
Proof.
  split; [exact big_over_limit | split].
  - now rewrite upload_nameless by reflexivity.
  - intros Heq.
    apply (f_equal (String.get 0)) in Heq.
    discriminate Heq.
Qed.

(** A 60 MB upload with a file name. *)
Lemma upload_too_large_rejected_witness :
  MAX_FILE_SIZE < len (body Sample.big) /\
  (upload_file (B := Sample.backends) Sample.big "s1" (at_entry Sample.w0)).1 =
    Raise (HTTPException 400
             "File too large. Maximum size allowed is 50MB. Your file is 60.0MB.").
Proof.
  split; [exact big_over_limit |].
  destruct (upload_too_large_rejected (B := Sample.backends) Sample.big "s1" Sample.w0
              big_over_limit) as (_ & Hdetail & _).
  rewrite (Hdetail eq_refl).
  change (body Sample.big) with Sample.big_body. rewrite big_len. reflexivity.
Defined.

(** C9, as stated, fails: the 60 MB upload is rejected before the [try]
    block, and the handler completes with the upload stream still open. *)
Lemma upload_big_stream_left_open :
  (upload_file (B := Sample.backends) Sample.big "s1" (at_entry Sample.w0)).1 =
    Raise (HTTPException 400
             "File too large. Maximum size allowed is 50MB. Your file is 60.0MB.") /\
  stream_closed (upload_file (B := Sample.backends) Sample.big "s1" (at_entry Sample.w0)).2 =
    false.
Proof.
  rewrite (upload_too_large (B := Sample.backends) Sample.big "s1" Sample.w0 eq_refl
             big_over_limit).
  split.
  - cbn [fst]. change (body Sample.big) with Sample.big_body. rewrite big_len. reflexivity.
  - reflexivity.
Qed.

(** A two-byte text file, stored, parsed, embedded and cleaned up. *)
Lemma upload_cleanup_witness :
  passes_validation Sample.notes = true /\
  fs (upload_file (B := Sample.backends) Sample.notes "s1" (at_entry Sample.w0)).2
    !! upload_path (B := Sample.backends) Sample.notes Sample.w0 = None /\
  stream_closed (upload_file (B := Sample.backends) Sample.notes "s1" (at_entry Sample.w0)).2 =
    true.
Proof.
  split; [reflexivity |].
  apply (proj1 (upload_cleanup (B := Sample.backends) Sample.notes "s1" Sample.w0)).
  reflexivity.
Defined.

(** The client's name "../../etc/notes.final.TXT" leaves only ".TXT" in the
    path; the request consumes draw 0, and the request after it, which reads
    draw 1, is stored elsewhere. *)
Lemma upload_temp_path_witness :
  passes_validation Sample.notes = true /\
  upload_path (B := Sample.backends) Sample.notes Sample.w0 =
    "temp_uploads/00000000-0000-4000-8000-000000000000.TXT"%string /\
  Py.path_dirname (upload_path (B := Sample.backends) Sample.notes Sample.w0) =
    "temp_uploads"%string /\
  head (new_calls (at_entry Sample.w0)
          (upload_file (B := Sample.backends) Sample.notes "s1" (at_entry Sample.w0)).2) =
    Some (FsOpenWb "temp_uploads/00000000-0000-4000-8000-000000000000.TXT") /\
  uuid_draws (upload_file (B := Sample.backends) Sample.notes "s1" (at_entry Sample.w0)).2 =
    1%nat /\
  upload_path (B := Sample.backends) Sample.notes
    (upload_file (B := Sample.backends) Sample.notes "s1" (at_entry Sample.w0)).2 <>
  upload_path (B := Sample.backends) Sample.notes Sample.w0.
Proof.
  destruct (upload_temp_path (B := Sample.backends) Sample.notes "s1" Sample.w0 eq_refl)
    as (Hshape & Hdir & _ & _ & Hhead & _ & _ & Hdraws & _ & _ & Hfresh).
  split; [reflexivity | split; [| split; [| split; [| split]]]].
  - rewrite Hshape. vm_compute. reflexivity.
  - exact Hdir.
  - rewrite Hhead. vm_compute. reflexivity.
  - exact Hdraws.
  - intros Hsame. apply Hfresh in Hsame. rewrite Hdraws in Hsame.
    vm_compute in Hsame. discriminate Hsame.
Defined.

(* ===================================================================== *)
(** ** Whole requests on the sample backends *)
(* ===================================================================== *)

(** "Hello" without the flag: one model call, and its reply is the response. *)
Example chat_hello :
  (chat (B := Sample.backends) Sample.hello Sample.w0).1 = Return "reply"%string /\
  map is_retrieval_call
      (new_calls Sample.w0 (chat (B := Sample.backends) Sample.hello Sample.w0).2) = [false].
Proof. split; reflexivity. Qed.

(** "Summarize this" with the flag and session "s1": the retriever is
    fetched and queried, then the model is called. *)
Example chat_summarize :
  (chat (B := Sample.backends) Sample.summarize Sample.w0).1 = Return "reply"%string /\
  map is_retrieval_call
      (new_calls Sample.w0 (chat (B := Sample.backends) Sample.summarize Sample.w0).2) =
    [true; true; false].
Proof. split; reflexivity. Qed.

(** The flag with an empty session: no retrieval call; the model is still
    called, with the diagnostic as context. *)
Example chat_no_session :
  (chat (B := Sample.backends) Sample.no_session Sample.w0).1 = Return "reply"%string /\
  map is_retrieval_call
      (new_calls Sample.w0 (chat (B := Sample.backends) Sample.no_session Sample.w0).2) =
    [false] /\
  (retrieve_from_rag (B := Sample.backends) (chat_inputs Sample.no_session) Sample.w0).1 =
    Return {| upd_messages := None;
              upd_context :=
                Some (CtxStr "Error: No session ID provided for document retrieval.") |}.
Proof. repeat split; reflexivity. Qed.

(** A vector store that is down: the exception of the retrieval node is
    caught by [chat], which answers with the generic message. *)
Example chat_store_down :
  (chat (B := Sample.store_down) Sample.summarize Sample.w0).1 = Return chat_error_response.
Proof. reflexivity. Qed.

(* ===================================================================== *)
(** ** Further properties: strings *)
(* ===================================================================== *)

Lemma lower_app (s1 s2 : string) : Py.lower (s1 +:+ s2) = Py.lower s1 +:+ Py.lower s2.
Proof.
  induction s1 as [|a s1 IH]; [reflexivity |].
  change (String a s1 +:+ s2) with (String a (s1 +:+ s2)).
  simpl. rewrite IH. reflexivity.
Qed.

Lemma prefix_app (s post : string) : String.prefix s (s +:+ post) = true.
Proof.
  induction s as [|a s IH]; [now destruct post |].
  change (String a s +:+ post) with (String a (s +:+ post)).
  simpl. rewrite IH. now destruct (ascii_dec a a).
Qed.

Lemma contains_unfold (needle hay : string) :
  Py.contains needle hay =
    String.prefix needle hay ||
    match hay with EmptyString => false | String _ hay' => Py.contains needle hay' end.
Proof. now destruct hay. Qed.

Lemma contains_prefixed (needle post : string) : Py.contains needle (needle +:+ post) = true.
Proof. rewrite contains_unfold, prefix_app. reflexivity. Qed.

Lemma contains_later (needle pre hay : string) :
  Py.contains needle hay = true -> Py.contains needle (pre +:+ hay) = true.
Proof.
  intros H. induction pre as [|a pre IH]; [exact H |].
  change (String a pre +:+ hay) with (String a (pre +:+ hay)).
  simpl. rewrite IH. apply orb_true_r.
Qed.

(** A string that holds [needle] between any two strings contains it. *)
Lemma contains_infix (needle pre post : string) :
  Py.contains needle (pre +:+ needle +:+ post) = true.
Proof. apply contains_later, contains_prefixed. Qed.

(** ... and a string that contains [needle] holds it between two strings. *)
Lemma prefix_split (s1 s2 : string) :
  String.prefix s1 s2 = true -> exists post : string, s2 = s1 +:+ post.
Proof.
  revert s2. induction s1 as [|a s1 IH]; intros s2 H.
  - now exists s2.
  - destruct s2 as [|b s2]; [discriminate |].
    simpl in H. destruct (ascii_dec a b) as [-> |]; [| discriminate].
    destruct (IH s2 H) as [post ->]. now exists post.
Qed.

Lemma contains_split (needle hay : string) :
  Py.contains needle hay = true ->
  exists pre post : string, hay = pre +:+ needle +:+ post.
Proof.
  induction hay as [|a hay IH]; intros H; rewrite contains_unfold in H.
  - apply orb_true_iff in H as [H | H]; [| discriminate].
    apply prefix_split in H as [post ->]. now exists EmptyString, post.
  - apply orb_true_iff in H as [H | H].
    + apply prefix_split in H as [post ->]. now exists EmptyString, post.
    + destruct (IH H) as (pre & post & ->). now exists (String a pre), post.
Qed.

(* ===================================================================== *)
(** ** Further properties: the nodes *)
(* ===================================================================== *)

(** X1. [route_to_llm] matches keywords anywhere in the last message and
    in any letter case: a message that holds some spelling of "creative" or
    "write" is routed to "gemini", whatever else it holds; a message that
    holds some spelling of "code" or "python" and no spelling of the two
    creative keywords is routed to "groq". *)
Theorem route_to_llm_keyword_anywhere
    (state : AgentState) (m : Message) (pre kw post : string) :
  last (messages state) = Some m ->
  content m = pre +:+ kw +:+ post ->
  (Py.lower kw = "creative"%string \/ Py.lower kw = "write"%string ->
   route_to_llm state = Return "gemini"%string) /\
  (Py.lower kw = "code"%string \/ Py.lower kw = "python"%string ->
   Py.contains "creative" (Py.lower (content m)) = false ->
   Py.contains "write" (Py.lower (content m)) = false ->
   route_to_llm state = Return "groq"%string).
Proof.
  intros Hlast Hcontent.
  pose proof (route_to_llm_cases state m Hlast) as Hroute. cbv zeta in Hroute.
  assert (Hlow : Py.lower (content m) = Py.lower pre +:+ Py.lower kw +:+ Py.lower post)
    by (rewrite Hcontent, !lower_app; reflexivity).
  split.
  - intros Hkw. rewrite Hroute.
    assert (Hhit : Py.contains "creative" (Py.lower (content m)) ||
                   Py.contains "write" (Py.lower (content m)) = true).
    { rewrite Hlow. destruct Hkw as [-> | ->]; rewrite contains_infix;
        [reflexivity | apply orb_true_r]. }
    now rewrite Hhit.
  - intros Hkw Hc Hw. rewrite Hroute, Hc, Hw.
    assert (Hhit : Py.contains "code" (Py.lower (content m)) ||
                   Py.contains "python" (Py.lower (content m)) = true).
    { rewrite Hlow. destruct Hkw as [-> | ->]; rewrite contains_infix;
        [reflexivity | apply orb_true_r]. }
    simpl orb at 1. cbv iota. now rewrite Hhit.
Qed.

(** "Please WRITE some Python code": the creative keyword wins. *)
Lemma route_to_llm_keyword_anywhere_witness :
  route_to_llm
    {| messages := [HumanMessage "Please WRITE some Python code"];
       session_id := None; use_rag := None; system_prompt := None; context := None |} =
    Return "gemini"%string.
Proof.
  apply (proj1 (route_to_llm_keyword_anywhere
                  {| messages := [HumanMessage "Please WRITE some Python code"];
                     session_id := None; use_rag := None; system_prompt := None;
                     context := None |}
                  (HumanMessage "Please WRITE some Python code")
                  "Please " "WRITE" " some Python code" eq_refl eq_refl)).
  right. reflexivity.
Defined.

(** X2. What each answer of [route_to_llm] tells about the message: "gemini"
    is answered only when the lower-cased message holds "creative" or
    "write", "groq" only when it holds "code" or "python", and the default
    "ginini" only when it holds none of the four keywords. *)
Theorem route_to_llm_answer_reason (state : AgentState) (m : Message) :
  last (messages state) = Some m ->
  let holds kw := exists pre post : string, Py.lower (content m) = pre +:+ kw +:+ post in
  (route_to_llm state = Return "gemini"%string -> holds "creative"%string \/ holds "write"%string) /\
  (route_to_llm state = Return "groq"%string -> holds "code"%string \/ holds "python"%string) /\
  (route_to_llm state = Return "ginini"%string ->
   ~ holds "creative"%string /\ ~ holds "write"%string /\
   ~ holds "code"%string /\ ~ holds "python"%string).
Proof.
  intros Hlast holds.
  pose proof (route_to_llm_cases state m Hlast) as Hroute. cbv zeta in Hroute.
  assert (Hno : forall kw, Py.contains kw (Py.lower (content m)) = false -> ~ holds kw).
  { intros kw Hc (pre & post & Heq). rewrite Heq, contains_infix in Hc. discriminate. }
  rewrite Hroute.
  destruct (Py.contains "creative" (Py.lower (content m))) eqn:Hc;
  destruct (Py.contains "write" (Py.lower (content m))) eqn:Hw;
  destruct (Py.contains "code" (Py.lower (content m))) eqn:Hd;
  destruct (Py.contains "python" (Py.lower (content m))) eqn:Hp; simpl;
    (split; [| split]); intros Heq; try discriminate Heq;
    try (left; now apply contains_split);
    try (right; now apply contains_split).
  repeat split; now apply Hno.
Qed.

(** "Hello" is answered with the default, so it holds no keyword. *)
Lemma route_to_llm_answer_reason_witness :
  ~ exists pre post : string, Py.lower "Hello" = pre +:+ "code" +:+ post.
Proof.
  apply (proj2 (proj2 (route_to_llm_answer_reason (chat_inputs Sample.hello)
                         (HumanMessage "Hello") eq_refl))).
  reflexivity.
Defined.

Section MoreNodes.
Context `{B : Backends}.

(** X3. An empty message list.  The nodes that read the last message,
    [route_to_llm], [retrieve_from_rag], [generate_with_context] and
    [generate_gemini], raise IndexError and make no outside call, even when
    the session id is missing; [run_web_search], with a search tool, turns
    that IndexError into its "Web search failed" context; [generate_direct]
    does not read the last message and calls the model with the system entry
    alone. *)
Theorem empty_history (state : AgentState) (w : world) :
  messages state = [] ->
  route_to_llm state = Raise IndexError /\
  retrieve_from_rag state w = (Raise IndexError, w) /\
  generate_with_context state w = (Raise IndexError, w) /\
  generate_gemini state w = (Raise IndexError, w) /\
  (Py.falsy_opt TAVILY_API_KEY = false ->
   run_web_search state w =
     (Return {| upd_messages := None;
                upd_context :=
                  Some (CtxStr "Web search failed: list index out of range") |}, w)) /\
  new_calls w (generate_direct state w).2 =
    [LlmInvoke llm_gemini
       [InTuple "system" (default default_system_prompt (system_prompt state))]].
Proof.
  intros Hempty.
  assert (Hlast : last_message state = Raise IndexError)
    by (unfold last_message; now rewrite Hempty).
  repeat split.
  - unfold route_to_llm. now rewrite Hlast.
  - unfold retrieve_from_rag. rewrite Hlast. reflexivity.
  - unfold generate_with_context. rewrite Hlast. reflexivity.
  - unfold generate_gemini. rewrite Hlast. reflexivity.
  - intros Hkey. unfold run_web_search, get_web_search_tool. rewrite Hkey.
    unfold try_except. rewrite Hlast. reflexivity.
  - rewrite generate_direct_run. simpl snd. rewrite new_calls_add_call.
    unfold direct_messages_for_llm. now rewrite Hempty.
Qed.

(** X6. [run_web_search] without and with a search tool.  When the API key
    is missing or empty the node stores the fixed "not available" text and
    calls nothing; with a key it calls the tool once with the text of the
    last message and stores what the tool returns, unchanged. *)
Theorem run_web_search_contract (state : AgentState) (w : world) :
  (TAVILY_API_KEY = None \/ TAVILY_API_KEY = Some EmptyString ->
   run_web_search state w =
     (Return {| upd_messages := None;
                upd_context :=
                  Some (CtxStr "Web search is not available. Please provide a TAVILY_API_KEY in your environment variables.") |},
      w)) /\
  (forall (key : string) (m : Message) (results : tool_result),
     TAVILY_API_KEY = Some key -> key <> EmptyString ->
     last (messages state) = Some m ->
     search_invoke (content m) = Return results ->
     run_web_search state w =
       (Return {| upd_messages := None; upd_context := Some (CtxTool results) |},
        add_call (SearchInvoke (content m)) w)).
Proof.
  split.
  - intros [Hkey | Hkey]; unfold run_web_search, get_web_search_tool; rewrite Hkey; reflexivity.
  - intros key m results Hkey Hne Hlast Hres.
    assert (Hfalsy : Py.falsy_opt TAVILY_API_KEY = false)
      by (rewrite Hkey; destruct key; [congruence | reflexivity]).
    unfold run_web_search, get_web_search_tool. rewrite Hfalsy.
    unfold try_except, last_message. rewrite Hlast. run_monad. now rewrite Hres.
Qed.

(** X7. Each generation node makes exactly one outside call, a model call,
    and its update holds the model's response as the only new message and
    no context; when the model raises, the node raises the same exception.
    [generate_direct] does so for every state, [generate_with_context] for
    every state with a last message. *)
Theorem generation_nodes_update (state : AgentState) (w : world) :
  (exists msgs : list llm_input,
     new_calls w (generate_direct state w).2 = [LlmInvoke llm_gemini msgs] /\
     (generate_direct state w).1 =
       match llm_invoke llm_gemini msgs with
       | Return response => Return {| upd_messages := Some [response]; upd_context := None |}
       | Raise e => Raise e
       end) /\
  (forall m : Message,
     last (messages state) = Some m ->
     exists msgs : list llm_input,
       new_calls w (generate_with_context state w).2 = [LlmInvoke llm_gemini msgs] /\
       (generate_with_context state w).1 =
         match llm_invoke llm_gemini msgs with
         | Return response => Return {| upd_messages := Some [response]; upd_context := None |}
         | Raise e => Raise e
         end).
Proof.
  split.
  - exists (direct_messages_for_llm state). rewrite generate_direct_run. simpl.
    now rewrite new_calls_add_call.
  - intros m Hlast. eexists.
    rewrite (generate_with_context_run state m w Hlast). cbv zeta. simpl.
    rewrite new_calls_add_call. split; reflexivity.
Qed.

End MoreNodes.

(** No message at all, on the sample backends. *)
Lemma empty_history_witness :
  let state := {| messages := []; session_id := None; use_rag := Some true;
                  system_prompt := None; context := None |} in
  retrieve_from_rag (B := Sample.backends) state Sample.w0 = (Raise IndexError, Sample.w0) /\
  new_calls Sample.w0 (generate_direct (B := Sample.backends) state Sample.w0).2 =
    [LlmInvoke (llm_gemini (B := Sample.backends))
       [InTuple "system" "You are a helpful AI assistant."]].
Proof.
  intros state.
  destruct (empty_history (B := Sample.backends) state Sample.w0 eq_refl)
    as (_ & Hretrieve & _ & _ & _ & Hdirect).
  split; [exact Hretrieve | exact Hdirect].
Defined.

(** A search that answers, and the whole history sent with the system entry. *)
Lemma run_web_search_contract_witness :
  run_web_search (B := Sample.searching) (chat_inputs Sample.hello) Sample.w0 =
    (Return {| upd_messages := None;
               upd_context := Some (CtxTool {| tool_str := "results for Hello" |}) |},
     add_call (SearchInvoke "Hello") Sample.w0).
Proof.
  apply (proj2 (run_web_search_contract (B := Sample.searching)
                  (chat_inputs Sample.hello) Sample.w0)
           "key"%string (HumanMessage "Hello") {| tool_str := "results for Hello" |});
    [reflexivity | discriminate | reflexivity | reflexivity].
Defined.

Lemma generation_nodes_update_witness :
  exists msgs : list llm_input,
    new_calls Sample.w0
      (generate_with_context (B := Sample.backends) Sample.summarize_with_context Sample.w0).2 =
      [LlmInvoke (llm_gemini (B := Sample.backends)) msgs] /\
    (generate_with_context (B := Sample.backends) Sample.summarize_with_context Sample.w0).1 =
      Return {| upd_messages := Some [Sample.reply]; upd_context := None |}.
Proof.
  destruct (proj2 (generation_nodes_update (B := Sample.backends)
                     Sample.summarize_with_context Sample.w0)
              (HumanMessage "Summarize this") eq_refl) as (msgs & Hcalls & Hupdate).
  exists msgs. split; [exact Hcalls | exact Hupdate].
Defined.

(* ===================================================================== *)
(** ** Further properties: [generate_gemini] and [strip] *)
(* ===================================================================== *)

Lemma lstrip_split (s : string) :
  exists l : string, s = l +:+ Py.lstrip s /\ all_space l = true.
Proof.
  induction s as [|a s (l & Hs & Hl)]; [now exists EmptyString |].
  simpl. destruct (Py.is_space a) eqn:Ha.
  - exists (String a l). split.
    + change (String a l +:+ Py.lstrip s) with (String a (l +:+ Py.lstrip s)). now rewrite <- Hs.
    + simpl. now rewrite Ha.
  - now exists EmptyString.
Qed.

Lemma lstrip_first (s : string) (a : ascii) :
  first_char (Py.lstrip s) = Some a -> Py.is_space a = false.
Proof.
  induction s as [|b s IH]; simpl; [discriminate |].
  destruct (Py.is_space b) eqn:Hb; [exact IH |].
  simpl. intros [= <-]. exact Hb.
Qed.

Lemma lstrip_empty (s : string) : Py.lstrip s = EmptyString <-> all_space s = true.
Proof.
  induction s as [|a s IH]; simpl; [tauto |].
  destruct (Py.is_space a); simpl; [exact IH |]. split; discriminate.
Qed.

Lemma rstrip_split (s : string) :
  exists r : string, s = Py.rstrip s +:+ r /\ all_space r = true.
Proof.
  induction s as [|a s (r & Hs & Hr)]; [now exists EmptyString |].
  simpl. destruct (Py.rstrip s) as [|b t] eqn:E.
  - change (EmptyString +:+ r) with r in Hs. subst r.
    destruct (Py.is_space a) eqn:Ha.
    + exists (String a s). split; [reflexivity |]. simpl. now rewrite Ha.
    + exists s. split; [reflexivity | exact Hr].
  - exists r. split; [| exact Hr].
    change (String a (String b t) +:+ r) with (String a (String b t +:+ r)).
    now rewrite <- Hs.
Qed.

Lemma rstrip_last (s : string) (x : ascii) :
  last_char (Py.rstrip s) = Some x -> Py.is_space x = false.
Proof.
  induction s as [|a s IH]; simpl; [discriminate |].
  destruct (Py.rstrip s) as [|b t] eqn:E.
  - destruct (Py.is_space a) eqn:Ha; simpl; [discriminate |]. intros [= <-]. exact Ha.
  - exact IH.
Qed.

Lemma rstrip_first (a : ascii) (s : string) :
  Py.is_space a = false -> first_char (Py.rstrip (String a s)) = Some a.
Proof.
  intros Ha. simpl. destruct (Py.rstrip s); [now rewrite Ha | reflexivity].
Qed.

Lemma last_char_some (a : ascii) (s : string) : exists x : ascii, last_char (String a s) = Some x.
Proof.
  revert a. induction s as [|b s IH]; intros a; [now exists a |].
  destruct (IH b) as [x Hx]. exists x. exact Hx.
Qed.

Section Gemini.
Context `{B : Backends}.

(** X4. [generate_gemini] on an ASCII message.  When the last message is
    empty or white space only, the node raises ValueError and calls nothing.
    Otherwise it makes one model call whose only entry is a human message
    holding the text of the last message without its leading and trailing
    white space: the message is white space, then that text, then white
    space, and the text neither starts nor ends with a white-space
    character.  Earlier messages of the history are not sent. *)
Theorem generate_gemini_contract (state : AgentState) (m : Message) (w : world) :
  last (messages state) = Some m ->
  Py.is_ascii (content m) = true ->
  (all_space (content m) = true ->
   generate_gemini state w =
     (Raise (PyException "ValueError"
               ("Last message content is empty " +:+ Py.em_dash +:+ " cannot invoke Gemini.")),
      w)) /\
  (all_space (content m) = false ->
   exists l text r : string,
     content m = l +:+ text +:+ r /\
     all_space l = true /\ all_space r = true /\
     (exists a : ascii, first_char text = Some a /\ Py.is_space a = false) /\
     (exists a : ascii, last_char text = Some a /\ Py.is_space a = false) /\
     new_calls w (generate_gemini state w).2 =
       [LlmInvoke llm_gemini [InMessage (HumanMessage text)]] /\
     (generate_gemini state w).1 =
       match llm_invoke llm_gemini [InMessage (HumanMessage text)] with
       | Return response => Return (messages_update [response])
       | Raise e => Raise e
       end).
Proof.
  intros Hlast _. unfold generate_gemini, last_message. rewrite Hlast. run_monad. split.
  - intros Hspace. apply lstrip_empty in Hspace.
    unfold Py.strip. rewrite Hspace. reflexivity.
  - intros Hspace.
    destruct (lstrip_split (content m)) as (l & Hl & Hlspace).
    destruct (Py.lstrip (content m)) as [|a t] eqn:Hstripped.
    { apply lstrip_empty in Hstripped. congruence. }
    assert (Ha : Py.is_space a = false)
      by (apply (lstrip_first (content m)); now rewrite Hstripped).
    destruct (rstrip_split (String a t)) as (r & Hr & Hrspace).
    pose proof (rstrip_first a t Ha) as Hfirst.
    unfold Py.strip. rewrite Hstripped.
    destruct (Py.rstrip (String a t)) as [|a' t'] eqn:Htext; [discriminate |].
    exists l, (String a' t'), r.
    split; [now rewrite Hl at 1; rewrite Hr at 1 |].
    split; [exact Hlspace | split; [exact Hrspace |]].
    split; [exists a; now split |].
    split.
    { destruct (last_char_some a' t') as [x Hx]. exists x. split; [exact Hx |].
      apply (rstrip_last (String a t)). now rewrite Htext. }
    simpl Py.falsy. cbv iota.
    destruct (llm_invoke llm_gemini [InMessage (HumanMessage (String a' t'))]); simpl;
      rewrite new_calls_add_call; split; reflexivity.
Qed.

End Gemini.

(** "  hi there \n" after an earlier message: one entry is sent, cut out of
    the last message. *)
Lemma generate_gemini_contract_witness :
  let state := {| messages := [HumanMessage "first";
                               HumanMessage ("  hi there " +:+ Py.nl)];
                  session_id := None; use_rag := None; system_prompt := None;
                  context := None |} in
  all_space ("  hi there " +:+ Py.nl) = false /\
  exists l text r : string,
    "  hi there " +:+ Py.nl = l +:+ text +:+ r /\
    new_calls Sample.w0 (generate_gemini (B := Sample.backends) state Sample.w0).2 =
      [LlmInvoke (llm_gemini (B := Sample.backends)) [InMessage (HumanMessage text)]].
Proof.
  intros state. split; [reflexivity |].
  destruct (proj2 (generate_gemini_contract (B := Sample.backends) state
                     (HumanMessage ("  hi there " +:+ Py.nl)) Sample.w0 eq_refl eq_refl)
              eq_refl) as (l & text & r & Hsplit & _ & _ & _ & _ & Hcalls & _).
  exists l, text, r. split; [exact Hsplit | exact Hcalls].
Defined.

Example generate_gemini_strips :
  new_calls Sample.w0
    (generate_gemini (B := Sample.backends)
       {| messages := [HumanMessage ("  hi there " +:+ Py.nl)];
          session_id := None; use_rag := None; system_prompt := None; context := None |}
       Sample.w0).2 =
    [LlmInvoke (llm_gemini (B := Sample.backends)) [InMessage (HumanMessage "hi there")]].
Proof. reflexivity. Qed.

(* ===================================================================== *)
(** ** Further properties: the chat boundary *)
(* ===================================================================== *)

Section ChatBoundary.
Context `{B : Backends}.

(** X5. The handler of [chat] around any graph executor lets no exception
    that derives from [Exception] out: it returns a response text, or
    raises an exception that does not derive from [Exception] (its clause
    is [except Exception], so a cancellation of the awaited executor leaves
    it).  When the executor raises an [Exception], whatever it is, the
    response is the generic apology and the exception text is not part of
    it; when the executor returns a state, the response is the content of
    the state's last message, or the apology when the state holds no
    message.  [chat] is this handler around the compiled graph. *)
Theorem chat_boundary (executer : AgentState -> M AgentState)
    (request : ChatRequest.t) (w : world) :
  match (chat_with executer request w).1 with
  | Return _ => True
  | Raise e => is_Exception e = false
  end /\
  (forall (e : exn) (w' : world),
     executer (chat_inputs request) w = (Raise e, w') ->
     chat_with executer request w =
       if is_Exception e
       then (Return "Sorry, an error occurred while processing your request."%string, w')
       else (Raise e, w')) /\
  (forall (final : AgentState) (w' : world),
     executer (chat_inputs request) w = (Return final, w') ->
     chat_with executer request w =
       (Return match last (messages final) with
               | Some m => content m
               | None => "Sorry, an error occurred while processing your request."%string
               end, w')) /\
  chat request w = chat_with agent_executer request w.
Proof.
  unfold chat_with, try_except, last_message. run_monad.
  repeat split.
  - destruct (executer (chat_inputs request) w) as [[final|e] w']; simpl.
    + now destruct (last (messages final)).
    + destruct (is_Exception e) eqn:He; simpl; [exact I | exact He].
  - intros e w' Hrun. rewrite Hrun. now destruct (is_Exception e).
  - intros final w' Hrun. rewrite Hrun. now destruct (last (messages final)).
Qed.

End ChatBoundary.

(** An executor that raises an [Exception], one that is cancelled, and one
    that returns the state it was given. *)
Lemma chat_boundary_witness :
  chat_with (fun _ w => (Raise Sample.network_down, w)) Sample.hello Sample.w0 =
    (Return "Sorry, an error occurred while processing your request."%string, Sample.w0) /\
  chat_with (fun _ w => (Raise Sample.cancelled, w)) Sample.hello Sample.w0 =
    (Raise Sample.cancelled, Sample.w0) /\
  chat_with (fun state w => (Return state, w)) Sample.hello Sample.w0 =
    (Return "Hello"%string, Sample.w0).
Proof.
  destruct (chat_boundary (B := Sample.backends)
              (fun _ w => (Raise Sample.cancelled, w)) Sample.hello Sample.w0)
    as (_ & Hcancel & _ & _).
  destruct (chat_boundary (B := Sample.backends)
              (fun _ w => (Raise Sample.network_down, w)) Sample.hello Sample.w0)
    as (_ & Hraise & _ & _).
  destruct (chat_boundary (B := Sample.backends)
              (fun state w => (Return state, w)) Sample.hello Sample.w0)
    as (_ & _ & Hreturn & _).
  split; [| split].
  - apply (Hraise Sample.network_down Sample.w0). reflexivity.
  - apply (Hcancel Sample.cancelled Sample.w0). reflexivity.
  - apply (Hreturn (chat_inputs Sample.hello) Sample.w0). reflexivity.
Defined.

(* ===================================================================== *)
(** ** Further properties: what an accepted upload does *)
(* ===================================================================== *)

Section UploadRuns.
Context `{B : Backends}.

(** The whole run of an accepted upload whose file is written. *)
Lemma upload_written_run (file : UploadFile) (sid : string) (w : world) :
  passes_validation file = true ->
  disk_write (upload_path file w) (body file) = WriteOk ->
  let name := default EmptyString (filename file) in
  let path := upload_path file w in
  let ext := (Py.splitext name).2 in
  let files := <[path := body file]> (fs w) in
  upload_file file sid (at_entry w) =
    (match parse_file path ext files with
     | Raise e =>
         if is_Exception e
         then Raise (HTTPException 400 (parse_error_detail name e))
         else Raise e
     | Return [] => Raise (HTTPException 400 (no_text_detail name))
     | Return (c :: cs) =>
         match add_documents_to_store (c :: cs) sid with
         | Raise e =>
             if is_Exception e
             then Raise (HTTPException 500 (embedding_error_detail e))
             else Raise e
         | Return _ =>
             Return {| status := "success";
                       resp_filename := name;
                       chunks_added := length (c :: cs);
                       resp_message :=
                         "File processed and added to the knowledge base successfully." |}
         end
     end,
     {| fs := delete path files;
        stream_pos := length (body file);
        stream_closed := true;
        uuid_draws := S (uuid_draws w);
        calls := calls w ++
                 [FsOpenWb path; ParseFile path ext] ++
                 match parse_file path ext files with
                 | Return (c :: cs) => [AddDocuments (c :: cs) sid]
                 | _ => []
                 end ++
                 [FsRemove path] |}).
Proof.
  intros Hvalid Hwrite name path ext files.
  rewrite (upload_valid_run file sid w Hvalid).
  fold name path ext. subst files.
  fold path in Hwrite. clearbody path ext name.
  destruct w as [fs0 pos closed draws log].
  assert (Hthere : bool_decide (is_Some (<[path := body file]> fs0 !! path)) = true).
  { apply bool_decide_eq_true. rewrite lookup_insert_eq. eauto. }
  cbn [fs calls uuid_draws].
  set (parsed := parse_file path ext (<[path := body file]> fs0)).
  unfold try_finally, parse_and_embed, save_upload, before_try, at_entry. run_monad. simpl.
  rewrite drop_0, Hwrite.
  change (parse_file path ext _) with parsed.
  destruct parsed as [[|c cs]|[cls msg|cls msg|code detail]];
    simpl; unfold upload_handlers, raise; simpl.
  - rewrite cleanup_run. simpl. rewrite Hthere.
    cbv beta iota delta [set_stream_closed set_fs add_call set_stream_pos set_uuid_draws
                         fs stream_pos stream_closed uuid_draws calls].
    rewrite <- !app_assoc. reflexivity.
  - destruct (add_documents_to_store (c :: cs) sid) as [[]|[cls msg|cls msg|code detail]];
      simpl; rewrite cleanup_run; simpl; rewrite Hthere;
      cbv beta iota delta [set_stream_closed set_fs add_call set_stream_pos set_uuid_draws
                           fs stream_pos stream_closed uuid_draws calls];
      rewrite <- !app_assoc; reflexivity.
  - rewrite cleanup_run. simpl. rewrite Hthere.
    cbv beta iota delta [set_stream_closed set_fs add_call set_stream_pos set_uuid_draws
                         fs stream_pos stream_closed uuid_draws calls].
    rewrite <- !app_assoc. reflexivity.
  - rewrite cleanup_run. simpl. rewrite Hthere.
    cbv beta iota delta [set_stream_closed set_fs add_call set_stream_pos set_uuid_draws
                         fs stream_pos stream_closed uuid_draws calls].
    rewrite <- !app_assoc. reflexivity.
  - rewrite cleanup_run. simpl. rewrite Hthere.
    cbv beta iota delta [set_stream_closed set_fs add_call set_stream_pos set_uuid_draws
                         fs stream_pos stream_closed uuid_draws calls].
    rewrite <- !app_assoc. reflexivity.
Qed.

End UploadRuns.

Section UploadOutcomes.
Context `{B : Backends}.

(** X8. The answer of an accepted upload whose file is written.  The
    parser is given the temporary path, the extension and a disk on which
    that path holds exactly the uploaded bytes.  A parser exception that
    derives from [Exception] gives a 400 naming the file and the exception;
    no chunk gives a 400 naming the file; an exception of the vector store
    that derives from [Exception] gives a 500 with its text; in all three
    cases the [HTTPException] raised inside the [try] block leaves the
    handler unchanged.  An exception of the parser or of the vector store
    that does not derive from [Exception] is caught by no clause and leaves
    the handler as it is.  Otherwise the answer is "success" with the
    client's file name and the number of chunks parsed. *)
Theorem upload_answers (file : UploadFile) (sid : string) (w : world) :
  passes_validation file = true ->
  disk_write (upload_path file w) (body file) = WriteOk ->
  let name := default EmptyString (filename file) in
  let path := upload_path file w in
  let files := <[path := body file]> (fs w) in
  let parsed := parse_file path (Py.splitext name).2 files in
  let answer := (upload_file file sid (at_entry w)).1 in
  files !! path = Some (body file) /\
  (forall e : exn,
     parsed = Raise e ->
     answer =
       if is_Exception e
       then Raise (HTTPException 400
                     (("Could not parse the file '" +:+ name +:+
                       "'. The file might be corrupted or in an unsupported format. Error: ") +:+
                      exn_str e))
       else Raise e) /\
  (parsed = Return [] ->
   answer = Raise (HTTPException 400
              ("Could not extract any text content from the file: " +:+ name +:+
               ". The file might be empty or contain only images."))) /\
  (forall (chunks : list Document) (e : exn),
     parsed = Return chunks -> chunks <> [] ->
     add_documents_to_store chunks sid = Raise e ->
     answer =
       if is_Exception e
       then Raise (HTTPException 500
                     ("Failed to create embeddings for the document. " +:+ exn_str e))
       else Raise e) /\
  (forall chunks : list Document,
     parsed = Return chunks -> chunks <> [] ->
     add_documents_to_store chunks sid = Return tt ->
     answer = Return {| status := "success";
                        resp_filename := name;
                        chunks_added := length chunks;
                        resp_message :=
                          "File processed and added to the knowledge base successfully." |}).
Proof.
  intros Hvalid Hwrite name path files parsed answer.
  pose proof (upload_written_run file sid w Hvalid Hwrite) as Hrun.
  cbv zeta in Hrun. fold name path files parsed in Hrun.
  assert (Hanswer : answer = (upload_file file sid (at_entry w)).1) by reflexivity.
  rewrite Hrun in Hanswer. cbn [fst] in Hanswer. clear Hrun.
  split; [apply lookup_insert_eq |].
  split; [| split; [| split]].
  - intros e He. rewrite Hanswer, He. unfold parse_error_detail.
    now rewrite !str_app_assoc.
  - intros He. rewrite Hanswer, He. reflexivity.
  - intros chunks e He Hne Hadd. rewrite Hanswer, He.
    destruct chunks as [|c cs]; [congruence |]. now rewrite Hadd.
  - intros chunks He Hne Hadd. rewrite Hanswer, He.
    destruct chunks as [|c cs]; [congruence |]. now rewrite Hadd.
Qed.

(** X9. The outside calls of an accepted upload whose file is written, in
    order: the file is opened at the temporary path, the parser is called
    once on that path, the vector store is called only when the parser
    returned at least one chunk, once, with exactly those chunks and the
    session id of the request, and the temporary file is removed last.
    The request draws one UUID. *)
Theorem upload_call_order (file : UploadFile) (sid : string) (w : world) :
  passes_validation file = true ->
  disk_write (upload_path file w) (body file) = WriteOk ->
  let path := upload_path file w in
  let ext := (Py.splitext (default EmptyString (filename file))).2 in
  let w' := (upload_file file sid (at_entry w)).2 in
  new_calls (at_entry w) w' =
    [FsOpenWb path; ParseFile path ext] ++
    match parse_file path ext (<[path := body file]> (fs w)) with
    | Return (c :: cs) => [AddDocuments (c :: cs) sid]
    | _ => []
    end ++
    [FsRemove path] /\
  uuid_draws w' = S (uuid_draws w).
Proof.
  intros Hvalid Hwrite path ext w'.
  pose proof (upload_written_run file sid w Hvalid Hwrite) as Hrun.
  cbv zeta in Hrun. fold path ext in Hrun.
  subst w'. rewrite Hrun. cbn [snd]. split; [| reflexivity].
  unfold new_calls.
  cbn [calls at_entry set_stream_closed set_stream_pos]. apply drop_app_length.
Qed.

(** X10. An accepted upload whose file cannot be written.  When [open]
    or the copy raises an exception [e], neither the parser nor the vector
    store is called, and the answer depends on the class of [e]: for a
    class that derives from [Exception] (an OSError, say) it is a 500 whose
    detail is "An unexpected error occurred while processing the file: "
    followed by the text of [e]; an exception that does not derive from
    [Exception] (KeyboardInterrupt, a cancellation) is caught by no clause
    and leaves the handler as it is. *)
Theorem upload_write_failure (file : UploadFile) (sid : string) (w : world) (e : exn) :
  passes_validation file = true ->
  (disk_write (upload_path file w) (body file) = OpenFails e \/
   exists written : nat,
     disk_write (upload_path file w) (body file) = CopyFails written e) ->
  (upload_file file sid (at_entry w)).1 =
    match e with
    | PyException _ msg =>
        Raise (HTTPException 500
                 ("An unexpected error occurred while processing the file: " +:+ msg))
    | PyBaseException _ _ => Raise e
    | HTTPException _ _ => Raise e
    end /\
  Forall (fun c => is_ingestion_call c = false)
         (new_calls (at_entry w) (upload_file file sid (at_entry w)).2).
Proof.
  intros Hvalid Hwrite.
  rewrite (upload_valid_run file sid w Hvalid).
  set (path := upload_path file w) in *.
  set (name := default EmptyString (filename file)).
  set (ext := (Py.splitext name).2).
  clearbody path ext name.
  destruct w as [fs0 pos closed draws log].
  assert (Hnew : forall (tail : list call),
             Forall (fun c => is_ingestion_call c = false) tail ->
             Forall (fun c => is_ingestion_call c = false)
                    (drop (length log) (log ++ tail)))
    by (intros tail Htail; now rewrite drop_app_length).
  unfold new_calls.
  cbv beta iota zeta delta
      [mbind M_bind mret M_ret raise try_except try_finally read_world update_world
       set_fs set_stream_pos set_stream_closed set_uuid_draws add_call
       fs stream_pos stream_closed uuid_draws calls fst snd before_try at_entry
       upload_handlers parse_and_embed save_upload cleanup path_exists os_remove file_close].
  rewrite drop_0.
  destruct Hwrite as [Hwrite | [written Hwrite]]; rewrite Hwrite;
    destruct e as [cls msg|cls msg|code detail];
    cbv beta iota zeta delta [fst snd is_Exception];
    match goal with
    | |- context [bool_decide ?P] => destruct (bool_decide P)
    end;
    cbv beta iota zeta delta [fst snd];
    (split; [reflexivity |]);
    rewrite <- ?app_assoc; apply Hnew; repeat constructor.
Qed.

End UploadOutcomes.

Section UploadShape.
Context `{B : Backends}.

Lemma parse_and_embed_return (file : UploadFile) (name sid path ext : string)
    (w : world) (r : UploadResponse) :
  (parse_and_embed file name sid path ext w).1 = Return r ->
  status r = "success"%string /\ resp_filename r = name /\ (0 < chunks_added r)%nat.
Proof.
  unfold parse_and_embed, save_upload. run_monad.
  destruct (disk_write path _) as [|e|written e]; try destruct (stream_closed _);
    simpl; try discriminate.
  match goal with
  | |- context [parse_file ?pp ?xx ?ff] => destruct (parse_file pp xx ff) as [[|c cs]|e]
  end; simpl; try discriminate.
  - destruct (add_documents_to_store (c :: cs) sid) as [[]|e]; simpl.
    + intros [= <-]. simpl. repeat split. lia.
    + destruct (is_Exception e); simpl; discriminate.
  - destruct (is_Exception e); simpl; discriminate.
Qed.

Lemma upload_handlers_raise (e : exn) (w : world) :
  is_Exception e = true ->
  exists e' : exn, upload_handlers e w = (Raise e', w) /\ is_http_exception e' = true.
Proof. destruct e; simpl; intros He; try discriminate He; eauto. Qed.

(** X11. What can leave [upload_file].  For every upload, the handler
    either returns, or raises an [HTTPException], or lets through an
    exception that does not derive from [Exception] (no clause of the
    handler catches one); an exception that derives from [Exception] and is
    not an [HTTPException] never leaves it, whichever backend fails and
    however writing the file fails.  When it returns, the upload passed
    validation and the response has status "success", the client's file
    name and at least one chunk added. *)
Theorem upload_result_shape (file : UploadFile) (sid : string) (w : world) :
  match (upload_file file sid (at_entry w)).1 with
  | Return r =>
      passes_validation file = true /\
      status r = "success"%string /\
      resp_filename r = default EmptyString (filename file) /\
      (0 < chunks_added r)%nat
  | Raise e => is_http_exception e = true \/ is_Exception e = false
  end.
Proof.
  destruct (passes_validation file) eqn:Hvalid.
  - rewrite (upload_valid_run file sid w Hvalid).
    unfold try_finally, try_except.
    destruct (parse_and_embed _ _ _ _ _ (before_try file w)) as [[r|e] w1] eqn:Hbody.
    + rewrite cleanup_run. cbn [fst].
      split; [reflexivity |].
      apply (parse_and_embed_return file (default EmptyString (filename file)) sid
               (upload_path file w) (Py.splitext (default EmptyString (filename file))).2
               (before_try file w)).
      rewrite Hbody. reflexivity.
    + destruct (is_Exception e) eqn:He.
      * destruct (upload_handlers_raise e w1 He) as (e' & -> & Hhttp).
        rewrite cleanup_run. left. exact Hhttp.
      * rewrite cleanup_run. right. exact He.
  - unfold passes_validation in Hvalid.
    destruct (Py.falsy_opt (filename file)) eqn:Hname.
    + rewrite (upload_nameless file sid (at_entry w) Hname). now left.
    + simpl in Hvalid. apply Z.leb_gt in Hvalid.
      rewrite (upload_too_large file sid w Hname Hvalid). now left.
Qed.

Lemma upload_valid_gone (file : UploadFile) (sid : string) (w : world) :
  passes_validation file = true ->
  fs (upload_file file sid (at_entry w)).2 !! upload_path file w = None.
Proof.
  intros Hvalid. rewrite (upload_valid_run file sid w Hvalid).
  unfold try_finally.
  destruct (try_except _ _ (before_try file w)) as [r w1].
  pose proof (cleanup_removes file (upload_path file w) w1) as [Hgone _].
  destruct (cleanup file (upload_path file w) w1) as [[u|e] w2] eqn:Hrun.
  - exact Hgone.
  - rewrite cleanup_run in Hrun. discriminate Hrun.
Qed.

(** X12. Storage after an accepted upload, however it ends: it is the
    storage before the request without the temporary path.  So a request
    whose temporary path was free leaves the storage exactly as it found
    it, and the uploaded bytes stay nowhere on disk. *)
Theorem upload_leaves_storage (file : UploadFile) (sid : string) (w : world) :
  passes_validation file = true ->
  let w' := (upload_file file sid (at_entry w)).2 in
  fs w' = delete (upload_path file w) (fs w) /\
  (fs w !! upload_path file w = None -> fs w' = fs w).
Proof.
  intros Hvalid w'.
  assert (Hdel : fs w' = delete (upload_path file w) (fs w)).
  { apply map_eq. intros p.
    destruct (decide (p = upload_path file w)) as [-> | Hp].
    - rewrite lookup_delete_eq. now apply upload_valid_gone.
    - rewrite lookup_delete_ne by congruence.
      pose proof (upload_valid_touches file sid w Hvalid) as [[Hfs _] _].
      apply (Hfs p Hp). }
  split; [exact Hdel |].
  intros Hfree. rewrite Hdel. now apply delete_id.
Qed.

End UploadShape.

(** The two-byte notes file on the sample backends: parsed into the two
    snippets and embedded. *)
Lemma upload_answers_witness :
  (upload_file (B := Sample.backends) Sample.notes "s1" (at_entry Sample.w0)).1 =
    Return {| status := "success";
              resp_filename := "../../etc/notes.final.TXT";
              chunks_added := 2;
              resp_message := "File processed and added to the knowledge base successfully." |}.
Proof.
  destruct (upload_answers (B := Sample.backends) Sample.notes "s1" Sample.w0 eq_refl eq_refl)
    as (_ & _ & _ & _ & Hsuccess).
  apply (Hsuccess Sample.snippets); [vm_compute; reflexivity | discriminate | reflexivity].
Defined.

Lemma upload_call_order_witness :
  new_calls (at_entry Sample.w0)
    (upload_file (B := Sample.backends) Sample.notes "s1" (at_entry Sample.w0)).2 =
    [FsOpenWb "temp_uploads/00000000-0000-4000-8000-000000000000.TXT";
     ParseFile "temp_uploads/00000000-0000-4000-8000-000000000000.TXT" ".TXT";
     AddDocuments Sample.snippets "s1";
     FsRemove "temp_uploads/00000000-0000-4000-8000-000000000000.TXT"].
Proof.
  rewrite (proj1 (upload_call_order (B := Sample.backends) Sample.notes "s1" Sample.w0
                    eq_refl eq_refl)).
  vm_compute. reflexivity.
Defined.

(** A full disk. *)
Lemma upload_write_failure_witness :
  (upload_file (B := Sample.searching) Sample.notes "s1" (at_entry Sample.w0)).1 =
    Raise (HTTPException 500
             "An unexpected error occurred while processing the file: disk full").
Proof.
  apply (proj1 (upload_write_failure (B := Sample.searching) Sample.notes "s1" Sample.w0
                  (PyException "OSError" "disk full") eq_refl (or_introl eq_refl))).
Defined.

(** The notes file on an empty disk: the disk is empty again afterwards. *)
Lemma upload_leaves_storage_witness :
  fs (upload_file (B := Sample.backends) Sample.notes "s1" (at_entry Sample.w0)).2 = ∅.
Proof.
  apply (proj2 (upload_leaves_storage (B := Sample.backends) Sample.notes "s1" Sample.w0
                  eq_refl)).
  apply lookup_empty.
Defined.

(* ===================================================================== *)
(** ** Further properties: the extension and the UUID in the path *)
(* ===================================================================== *)

Lemma take_drop_str (k : nat) (s : string) : Py.take_str k s +:+ Py.drop_str k s = s.
Proof.
  revert k. induction s as [|a s IH]; intros [|k]; try reflexivity.
  simpl. change (String a (Py.take_str k s) +:+ Py.drop_str k s)
    with (String a (Py.take_str k s +:+ Py.drop_str k s)).
  now rewrite IH.
Qed.

Lemma drop_str_next (k : nat) (s t : string) (c : ascii) :
  Py.drop_str k s = String c t -> Py.drop_str (S k) s = t.
Proof.
  revert s. induction k as [|k IH]; intros s H.
  - simpl in H. now subst s.
  - destruct s as [|a s]; [discriminate |]. simpl in H. simpl. now apply IH.
Qed.

(** At the index [rfind] answers stands the character sought. *)
Lemma rfind_from_hit (c : ascii) (s : string) (i : Z) :
  0 <= i -> 0 <= Py.rfind_from c s i ->
  exists t : string, Py.drop_str (Z.to_nat (Py.rfind_from c s i - i)) s = String c t.
Proof.
  revert i. induction s as [|a s IH]; intros i Hi Hr; [simpl in Hr; lia |].
  simpl Py.rfind_from in *. cbv zeta in *.
  pose proof (rfind_from_range c s (i + 1) ltac:(lia)) as Hrange.
  destruct (Z.leb_spec 0 (Py.rfind_from c s (i + 1))) as [Hpos | Hneg].
  - destruct Hrange as [Hrange | Hrange]; [lia |].
    destruct (IH (i + 1) ltac:(lia) Hpos) as [t Ht]. exists t.
    replace (Z.to_nat (Py.rfind_from c s (i + 1) - i))
      with (S (Z.to_nat (Py.rfind_from c s (i + 1) - (i + 1)))) by lia.
    exact Ht.
  - destruct (Ascii.eqb_spec a c) as [-> | Hne]; [| lia].
    exists s. replace (i - i) with 0 by lia. reflexivity.
Qed.

(** X13. The extension the handler takes from a client file name, whatever
    the name: it is a suffix of the name ([splitext] splits the name in
    two), and it is either empty or one dot followed by characters among
    which there is neither a dot nor a slash.  So the temporary path is
    "temp_uploads/", the UUID string and at most one such dotted suffix. *)
Theorem upload_extension_shape (name : string) (u : N) :
  let ext := (Py.splitext name).2 in
  (Py.splitext name).1 +:+ ext = name /\
  (ext = EmptyString \/
   exists rest : string,
     ext = "." +:+ rest /\ occurs "." rest = false /\ occurs "/" rest = false) /\
  temp_path name u = "temp_uploads/" +:+ Py.uuid_str u +:+ ext.
Proof.
  intros ext. split; [| split].
  - subst ext. unfold Py.splitext. cbv zeta.
    destruct (_ && _); simpl; [apply take_drop_str |].
    induction name as [|a name IH]; [reflexivity |].
    change (String a name +:+ EmptyString) with (String a (name +:+ EmptyString)).
    now rewrite IH.
  - pose proof (splitext_ext_no_slash name) as Hslash. fold ext in Hslash.
    subst ext. unfold Py.splitext in *. cbv zeta in *.
    destruct (Z.ltb_spec (Py.rfind "/" name) (Py.rfind "." name)) as [Hlt | Hge];
      [| left; reflexivity].
    simpl andb in *.
    destruct (Py.has_non_dot _ _ _); [| left; reflexivity].
    simpl snd in *. right.
    pose proof (rfind_from_range "/" name 0 ltac:(lia)) as Hsep.
    unfold Py.rfind in *.
    assert (Hdot : 0 <= Py.rfind_from "." name 0) by lia.
    destruct (rfind_from_hit "." name 0 ltac:(lia) Hdot) as [rest Hrest].
    rewrite Z.sub_0_r in Hrest.
    exists rest. rewrite Hrest in *. split; [reflexivity | split].
    + apply drop_str_next in Hrest. rewrite <- Hrest.
      apply (rfind_from_after "." name 0); lia.
    + simpl in Hslash. exact Hslash.
  - apply temp_path_shape.
Qed.

Section UploadCollisions.
Context `{B : Backends}.

(** X14. Temporary paths collide only when UUIDs do.  If two uploads, of
    any file names and arriving in any two worlds, are stored at the same
    temporary path, then they drew the same UUID and their file names have
    the same extension; two requests that draw different UUIDs never share
    a temporary file. *)
Theorem upload_path_collision (file1 file2 : UploadFile) (w1 w2 : world) :
  upload_path file1 w1 = upload_path file2 w2 ->
  Py.uuid4_int (urandom16 (uuid_draws w1)) = Py.uuid4_int (urandom16 (uuid_draws w2)) /\
  (Py.splitext (default EmptyString (filename file1))).2 =
  (Py.splitext (default EmptyString (filename file2))).2.
Proof.
  unfold upload_path. intros Heq.
  rewrite (proj1 (temp_path_shape _ _)) in Heq.
  rewrite (proj1 (temp_path_shape (default EmptyString (filename file2)) _)) in Heq.
  apply String.app_inj in Heq.
  apply app_same_length_inj in Heq as [Huuid Hext];
    [| now rewrite !uuid_str_length].
  split; [| exact Hext].
  apply uuid_str_inj; [apply uuid4_int_below | apply uuid4_int_below | exact Huuid].
Qed.

End UploadCollisions.

(** Two requests in a row on the sample host draw the UUIDs of draws 0 and
    1, so their paths differ. *)
Lemma upload_path_collision_witness :
  upload_path (B := Sample.backends) Sample.notes Sample.w0 <>
  upload_path (B := Sample.backends) Sample.notes (set_uuid_draws 1 Sample.w0).
Proof.
  intros Heq.
  apply (upload_path_collision (B := Sample.backends)) in Heq as [Huuid _].
  vm_compute in Huuid. discriminate Huuid.
Defined.

(* ===================================================================== *)
(** ** Further properties: the retrieved context and the size shown *)
(* ===================================================================== *)

Lemma str_app_nil (s : string) : s +:+ EmptyString = s.
Proof.
  induction s as [|a s IH]; [reflexivity |].
  change (String a s +:+ EmptyString) with (String a (s +:+ EmptyString)). now rewrite IH.
Qed.

Lemma join_holds (sep x : string) (parts : list string) :
  In x parts -> exists pre post : string, Py.join sep parts = pre +:+ x +:+ post.
Proof.
  unfold Py.join. induction parts as [|y parts IH]; intros Hin; [destruct Hin |].
  destruct Hin as [-> | Hin].
  - destruct parts as [|z parts].
    + exists EmptyString, EmptyString.
      change (EmptyString +:+ x +:+ EmptyString) with (x +:+ EmptyString).
      rewrite str_app_nil. reflexivity.
    + exists EmptyString, (sep +:+ String.concat sep (z :: parts)). reflexivity.
  - destruct (IH Hin) as (pre & post & Hrest).
    destruct parts as [|z parts]; [destruct Hin |].
    exists (y +:+ sep +:+ pre), post.
    change (String.concat sep (y :: z :: parts))
      with (y +:+ sep +:+ String.concat sep (z :: parts)).
    rewrite Hrest. now rewrite !str_app_assoc.
Qed.

Section RetrievedContext.
Context `{B : Backends}.

(** X15. The context [retrieve_from_rag] builds from the snippets the
    retriever returns: it is empty when there is no snippet, it is the
    snippet's text alone when there is one, and in every case the text of
    each snippet stands in it unchanged. *)
Theorem retrieved_context_holds_snippets
    (state : AgentState) (m : Message) (w : world)
    (sid : string) (r : retriever) (docs : list Document) :
  last (messages state) = Some m ->
  session_id state = Some sid -> sid <> EmptyString ->
  get_retriever sid = Return r ->
  retriever_invoke r (content m) = Return docs ->
  exists ctx : string,
    (retrieve_from_rag state w).1 =
      Return {| upd_messages := None; upd_context := Some (CtxStr ctx) |} /\
    (docs = [] -> ctx = EmptyString) /\
    (forall d : Document, docs = [d] -> ctx = page_content d) /\
    (forall d : Document,
       In d docs -> exists pre post : string, ctx = pre +:+ page_content d +:+ post).
Proof.
  intros Hlast Hsid Hne Hget Hinvoke.
  exists (Py.join (Py.nl +:+ Py.nl) (map page_content docs)).
  split; [| split; [| split]].
  - unfold retrieve_from_rag, last_message. rewrite Hlast, Hsid.
    destruct sid as [|c sid']; [congruence |].
    set (sid := String c sid') in *.
    run_monad. simpl. rewrite Hget. simpl. now rewrite Hinvoke.
  - intros ->. reflexivity.
  - intros d ->. reflexivity.
  - intros d Hd. apply join_holds. now apply in_map.
Qed.

End RetrievedContext.

(** The request "Summarize this" of session "s1", whose retriever returns the
    snippets "A" and "B": the node's context holds "B". *)
Lemma retrieved_context_holds_snippets_witness :
  exists ctx : string,
    (retrieve_from_rag (B := Sample.backends) (chat_inputs Sample.summarize) Sample.w0).1 =
      Return {| upd_messages := None; upd_context := Some (CtxStr ctx) |} /\
    ctx = "A" +:+ Py.nl +:+ Py.nl +:+ "B" /\
    exists pre post : string, ctx = pre +:+ "B" +:+ post.
Proof.
  destruct (retrieved_context_holds_snippets (B := Sample.backends)
              (chat_inputs Sample.summarize) (HumanMessage "Summarize this") Sample.w0
              "s1" "s1"%string Sample.snippets eq_refl eq_refl ltac:(discriminate)
              eq_refl eq_refl) as (ctx & Hctx & _ & _ & Hholds).
  exists ctx. split; [exact Hctx | split].
  - now injection Hctx as <-.
  - apply (Hholds {| page_content := "B" |}). right. left. reflexivity.
Defined.

(** X16. The size a rejection shows.  For every byte count over the limit,
    the number of tenths of a megabyte printed in "Your file is ...MB" is
    the nearest one to the true size (off by at most one twentieth of a
    megabyte) and is never below 50.0, the limit the message states; it is
    printed as its integer part, a dot and one digit. *)
Theorem too_large_size_shown (size : Z) :
  MAX_FILE_SIZE < size ->
  let t := Py.tenths_of_mb size in
  500 <= t /\
  2 * Z.abs (1048576 * t - 10 * size) <= 1048576 /\
  0 <= t mod 10 <= 9 /\
  too_large_detail size =
    "File too large. Maximum size allowed is 50MB. Your file is " +:+
    Py.str_N (Z.to_N (t / 10)) +:+ "." +:+ Py.str_N (Z.to_N (t mod 10)) +:+ "MB.".
Proof.
  intros Hsize t. unfold MAX_FILE_SIZE in Hsize.
  assert (Hdiv : 10 * size = 1048576 * (10 * size / 1048576) + (10 * size) mod 1048576)
    by (apply Z.div_mod; lia).
  pose proof (Z.mod_pos_bound (10 * size) 1048576 ltac:(lia)) as Hmod.
  assert (Ht : (t = 10 * size / 1048576 /\ (10 * size) mod 1048576 <= 524288) \/
               (t = 10 * size / 1048576 + 1 /\ 524288 <= (10 * size) mod 1048576)).
  { subst t. unfold Py.tenths_of_mb. cbv zeta.
    destruct (Z.ltb_spec 524288 ((10 * size) mod 1048576)); simpl; [right; lia |].
    destruct (Z.eqb_spec ((10 * size) mod 1048576) 524288); simpl; [| left; lia].
    destruct (Z.odd _); [right | left]; lia. }
  split; [| split; [| split]].
  - destruct Ht as [[-> _] | [-> _]]; lia.
  - destruct Ht as [[-> ?] | [-> ?]]; lia.
  - pose proof (Z.mod_pos_bound t 10 ltac:(lia)). lia.
  - unfold too_large_detail, Py.format_mb. cbv zeta. fold t. now rewrite !str_app_assoc.
Qed.

Lemma too_large_size_shown_witness :
  too_large_detail 62914560 =
    "File too large. Maximum size allowed is 50MB. Your file is 60.0MB."%string.
Proof.
  destruct (too_large_size_shown 62914560 eq_refl) as (_ & _ & _ & Hdetail).
  rewrite Hdetail. vm_compute. reflexivity.
Defined.
